(** * BeakDash connection executor: the data-fetch routes of server/routes.ts

    The routes that run an ad-hoc query against a stored connection
    (CSV parse, REST fetch, SQL through an ephemeral pool) are embedded
    as computations in a small monad that threads the trace of the
    external calls a handler makes and carries JavaScript's three
    completions: normal, [return], and [throw]. *)

From Stdlib Require Import ZArith String List Ascii Bool Lia DecimalString.
Import ListNotations.
Open Scope string_scope.
Open Scope Z_scope.

(** ** JavaScript values

    Connection and dataset configs are [Record<string, any>] read from a
    JSON column, so a value is a JSON value or [undefined].  Numbers are
    the integers a double holds exactly (the numbers the handlers print
    are ids and HTTP statuses); strings are byte strings holding UTF-8
    text, which is what [Buffer.from] makes of a string.  [console.log]
    and [console.error] have no bearing on a handler's outcome and are
    left out. *)
Module Js.

#[warnings="-register-all"]
Inductive JsVal : Type :=
| JUndef
| JNull
| JBool (b : bool)
| JNum (z : Z)
| JStr (s : string)
| JArr (items : list JsVal)
| JObj (fields : list (string * JsVal)).

(** ToBoolean. *)
Definition truthy (v : JsVal) : bool :=
  match v with
  | JUndef | JNull => false
  | JBool b => b
  | JNum z => negb (z =? 0)
  | JStr s => negb (s =? "")%string
  | JArr _ | JObj _ => true
  end.

(** [a || b]. *)
Definition js_or (a b : JsVal) : JsVal := if truthy a then a else b.

(** Decimal text of an integer, as a template literal prints it. *)
Definition dec (z : Z) : string := NilZero.string_of_int (Z.to_int z).

(** ToString, as applied by a template literal [`${v}`]. *)
Fixpoint toStr (v : JsVal) : string :=
  match v with
  | JUndef => "undefined"
  | JNull => "null"
  | JBool true => "true"
  | JBool false => "false"
  | JNum z => dec z
  | JStr s => s
  | JObj _ => "[object Object]"
  | JArr items =>
      (fix join (l : list JsVal) : string :=
         match l with
         | [] => ""
         | x :: r =>
             let sx := match x with JUndef | JNull => "" | _ => toStr x end in
             match r with
             | [] => sx
             | _ :: _ => sx ++ "," ++ join r
             end
         end) items
  end.

(** Own-property lookup in an object literal. *)
Fixpoint lookup (k : string) (fs : list (string * JsVal)) : JsVal :=
  match fs with
  | [] => JUndef
  | (k', v) :: r => if (k =? k')%string then v else lookup k r
  end.

(** [v.k] for the keys the handlers read (none of them is [length], an
    index or a prototype member, so only objects have them).  Every
    plain read in the handlers sits behind a truthiness test of its
    receiver, so the receiver is never [null] or [undefined]. *)
Definition get (v : JsVal) (k : string) : JsVal :=
  match v with
  | JObj fs => lookup k fs
  | _ => JUndef
  end.

(** [v?.k] *)
Definition get_opt (v : JsVal) (k : string) : JsVal :=
  match v with
  | JUndef | JNull => JUndef
  | _ => get v k
  end.

(** [v === "s"] *)
Definition is_str (v : JsVal) (s : string) : bool :=
  match v with
  | JStr s' => (s' =? s)%string
  | _ => false
  end.

(** [v !== false] *)
Definition not_false (v : JsVal) : bool :=
  match v with
  | JBool false => false
  | _ => true
  end.

(** [typeof v === 'object'] *)
Definition typeof_object (v : JsVal) : bool :=
  match v with
  | JNull | JArr _ | JObj _ => true
  | _ => false
  end.

(** [typeof v === 'string'] *)
Definition typeof_string (v : JsVal) : bool :=
  match v with
  | JStr _ => true
  | _ => false
  end.

(** Assignment of a property in an object literal: an existing key keeps
    its place and takes the new value, a new key goes last. *)
Fixpoint obj_set (fs : list (string * JsVal)) (k : string) (v : JsVal)
  : list (string * JsVal) :=
  match fs with
  | [] => [(k, v)]
  | (k', v') :: r =>
      if (k =? k')%string then (k, v) :: r else (k', v') :: obj_set r k v
  end.

Fixpoint indexed (i : Z) (l : list JsVal) : list (string * JsVal) :=
  match l with
  | [] => []
  | x :: r => (dec i, x) :: indexed (i + 1) r
  end.

(** The own enumerable properties copied by [{...v}]: the fields of an
    object, the indexed elements of an array or of a string (one
    character per index; bytes here), nothing for the other values. *)
Definition spread (v : JsVal) : list (string * JsVal) :=
  match v with
  | JObj fs => fs
  | JArr l => indexed 0 l
  | JStr s =>
      indexed 0 (map (fun c => JStr (String c EmptyString))
                     (list_ascii_of_string s))
  | _ => []
  end.

(** [{ message: m }] and [{ message: m, error: e }] *)
Definition msg (m : string) : JsVal := JObj [("message", JStr m)].
Definition msg_err (m e : string) : JsVal :=
  JObj [("message", JStr m); ("error", JStr e)].

(** *** Base64, as [Buffer.from(s).toString('base64')] yields it:
    the standard alphabet, padded with [=]. *)
Definition alphabet : string :=
  "ABCDEFGHIJKLMNOPQRSTUVWXYZabcdefghijklmnopqrstuvwxyz0123456789+/".

Definition sextet (n : N) : ascii :=
  match String.get (N.to_nat n) alphabet with
  | Some c => c
  | None => "="%char
  end.

Fixpoint base64_bytes (l : list N) : string :=
  match l with
  | [] => ""
  | [a] =>
      String (sextet (a / 4))
        (String (sextet ((a mod 4) * 16)) "==")
  | [a; b] =>
      String (sextet (a / 4))
        (String (sextet ((a mod 4) * 16 + b / 16))
           (String (sextet ((b mod 16) * 4)) "="))
  | a :: b :: c :: r =>
      String (sextet (a / 4))
        (String (sextet ((a mod 4) * 16 + b / 16))
           (String (sextet ((b mod 16) * 4 + c / 64))
              (String (sextet (c mod 64)) (base64_bytes r))))
  end%N.

Definition base64 (s : string) : string :=
  base64_bytes (map N_of_ascii (list_ascii_of_string s)).

End Js.
Import Js.

(** ** Records of the two registries *)

(** A dataset row: [query] is [string | null], [connectionId] is
    [number | null], [config] is a JSON value. *)
Record Dataset : Type := mkDataset {
  ds_id : Z;
  ds_connectionId : option Z;
  ds_query : option string;
  ds_config : JsVal
}.

Record Connection : Type := mkConnection {
  conn_id : Z;
  conn_type : string;
  conn_config : JsVal
}.

(** [if (dataset.query)]: a non-empty string. *)
Definition query_present (q : option string) : bool :=
  match q with
  | Some s => negb (s =? "")%string
  | None => false
  end.

(** The text of a present query. *)
Definition query_text (q : option string) : string :=
  match q with
  | Some s => s
  | None => ""
  end.

(** ** Effects *)

(** The options object handed to [parseCSV]. *)
Record CsvOptions : Type := mkCsvOptions {
  delimiter : JsVal;
  hasHeaders : bool;
  quoteChar : JsVal;
  trimFields : bool
}.

(** The [RequestInit] handed to [fetch]; [body] holds the value whose
    [JSON.stringify] text is sent. *)
Record FetchOptions : Type := mkFetchOptions {
  fo_headers : JsVal;
  fo_method : JsVal;
  fo_body : option JsVal
}.

(** A thrown [Error], by its [message]. *)
Definition JsError : Type := string.

Inductive Outcome (A : Type) : Type :=
| Ok (a : A)
| Err (e : JsError).
Arguments Ok {A} a.
Arguments Err {A} e.

(** What [fetch] resolves to; [resp_json] is what [response.json()]
    then gives. *)
Record HttpResponse : Type := mkHttpResponse {
  resp_ok : bool;
  resp_status : Z;
  resp_statusText : string;
  resp_json : Outcome JsVal
}.

(** The calls a handler makes to the outside, in order.  A pool is
    named by the connection string it was created with. *)
Inductive Event : Type :=
| EGetDataset (id : Z)
| EGetConnection (id : JsVal)
| EBuildConnString (config : JsVal)
| EPoolNew (connectionString : JsVal)
| EPoolQuery (sql : JsVal) (params : list JsVal)
| EPoolEnd
| EParseCSV (content : JsVal) (opts : CsvOptions)
| EFetch (url : JsVal) (opts : FetchOptions)
| EExtract (json : JsVal) (resultPath : JsVal)
| ERespond (status : Z) (body : JsVal).

(** The outside world of one request: what each external call answers.
    [parseCSV] and [extractRESTData] live in lib/data-adapters, the
    storage in server/storage, and the body of
    [buildPgConnectionString] is not part of the source text, so all of
    them are taken as given. *)
Record Env : Type := mkEnv {
  getDataset : Z -> Outcome (option Dataset);
  getConnection : JsVal -> Outcome (option Connection);
  buildPgConnectionString : JsVal -> option string;
  poolQuery : JsVal -> JsVal -> list JsVal -> Outcome JsVal;
  poolEnd : JsVal -> Outcome unit;
  parseCSV : JsVal -> CsvOptions -> Outcome JsVal;
  fetch : JsVal -> FetchOptions -> Outcome HttpResponse;
  extractRESTData : JsVal -> JsVal -> Outcome JsVal
}.

(** How a block of statements completes. *)
Inductive Completion (A : Type) : Type :=
| Normal (a : A)
| Returned
| Thrown (e : JsError).
Arguments Normal {A} a.
Arguments Returned {A}.
Arguments Thrown {A} e.

Module Eff.

Definition M (A : Type) : Type := list Event -> Completion A * list Event.

Definition ret {A} (a : A) : M A := fun tr => (Normal a, tr).

Definition bind {A B} (m : M A) (k : A -> M B) : M B :=
  fun tr =>
    match m tr with
    | (Normal a, tr') => k a tr'
    | (Returned, tr') => (Returned, tr')
    | (Thrown e, tr') => (Thrown e, tr')
    end.

Definition emit (e : Event) : M unit := fun tr => (Normal tt, (tr ++ [e])%list).

(** [throw new Error(e)] *)
Definition throw {A} (e : JsError) : M A := fun tr => (Thrown e, tr).

(** [return] out of the handler. *)
Definition exit {A} : M A := fun tr => (Returned, tr).

Definition lift {A} (o : Outcome A) : M A :=
  match o with
  | Ok a => ret a
  | Err e => throw e
  end.

(** [try { body } catch (e) { handler e }] *)
Definition try_catch {A} (body : M A) (handler : JsError -> M A) : M A :=
  fun tr =>
    match body tr with
    | (Thrown e, tr') => handler e tr'
    | r => r
    end.

(** [try { body } finally { fin }]: [fin] runs however [body]
    completes; the completion of [body] stands unless [fin] itself
    completes abruptly. *)
Definition try_finally {A} (body : M A) (fin : M unit) : M A :=
  fun tr =>
    match body tr with
    | (c, tr') =>
        match fin tr' with
        | (Normal _, tr'') => (c, tr'')
        | (Returned, tr'') => (Returned, tr'')
        | (Thrown e, tr'') => (Thrown e, tr'')
        end
    end.

End Eff.
Import Eff.

Declare Scope eff_scope.
Delimit Scope eff_scope with eff.
Notation "x <- m ;; k" := (bind m (fun x => k))
  (at level 61, m at next level, right associativity) : eff_scope.
Notation "m ;; k" := (bind m (fun _ => k))
  (at level 61, right associativity) : eff_scope.
Open Scope eff_scope.

(** The trace of a handler run on a fresh request. *)
Definition trace_of {A} (m : M A) : list Event := snd (m []).

(** The responses sent, in order. *)
Fixpoint responses (tr : list Event) : list (Z * JsVal) :=
  match tr with
  | [] => []
  | ERespond st b :: r => (st, b) :: responses r
  | _ :: r => responses r
  end.

(** The statements handed to [tempPool.query], in order. *)
Fixpoint executed (tr : list Event) : list JsVal :=
  match tr with
  | [] => []
  | EPoolQuery q _ :: r => q :: executed r
  | _ :: r => executed r
  end.

(** ** The routes *)

(** The two fixed statements of the auxiliary routes, as the template
    literals of the source spell them. *)
Definition schemaQuery : string := "
            SELECT 
              column_name as name, 
              data_type as type
            FROM 
              information_schema.columns 
            WHERE 
              table_name = $1
            ORDER BY 
              ordinal_position
          ".

Definition tablesQuery : string := "
            SELECT 
              table_name
            FROM 
              information_schema.tables 
            WHERE 
              table_schema = 'public'
              AND table_type = 'BASE TABLE'
            ORDER BY 
              table_name
          ".

(** [result.rows.map((row) => row.table_name)] *)
Fixpoint map_table_name (rows : list JsVal) : Outcome (list JsVal) :=
  match rows with
  | [] => Ok []
  | JUndef :: _ =>
      Err "Cannot read properties of undefined (reading 'table_name')"
  | JNull :: _ =>
      Err "Cannot read properties of null (reading 'table_name')"
  | row :: r =>
      match map_table_name r with
      | Ok names => Ok (get row "table_name" :: names)
      | Err e => Err e
      end
  end.

Definition rows_table_names (rows : JsVal) : Outcome JsVal :=
  match rows with
  | JArr l =>
      match map_table_name l with
      | Ok names => Ok (JArr names)
      | Err e => Err e
      end
  | JUndef => Err "Cannot read properties of undefined (reading 'map')"
  | JNull => Err "Cannot read properties of null (reading 'map')"
  | _ => Err "result.rows.map is not a function"
  end.

(** [['POST', 'PUT', 'PATCH'].includes(m)] *)
Definition mutating (m : JsVal) : bool :=
  is_str m "POST" || is_str m "PUT" || is_str m "PATCH".

(** What GET /datasets/:id/data reads from its request:
    [Number(req.params.id)] and [req.query.customQuery]. *)
Record DataRequest : Type := mkDataRequest {
  req_id : Z;
  req_customQuery : JsVal
}.

Section Routes.

Variable E : Env.

(** [res.status(st).json(body)]: the response is recorded; what Express
    does with a second response to one request is not modelled. *)
Definition respond (st : Z) (body : JsVal) : M unit :=
  emit (ERespond st body).

(** [return res.status(st).json(body)] *)
Definition reply {A} (st : Z) (body : JsVal) : M A :=
  respond st body ;; exit.

Definition storage_getDataset (id : Z) : M (option Dataset) :=
  emit (EGetDataset id) ;; lift (getDataset E id).

Definition storage_getConnection (id : JsVal) : M (option Connection) :=
  emit (EGetConnection id) ;; lift (getConnection E id).

Definition call_buildPgConnectionString (config : JsVal)
  : M (option string) :=
  emit (EBuildConnString config) ;; ret (buildPgConnectionString E config).

(** [new Pool({ connectionString })]: the constructor only stores its
    options. *)
Definition newPool (connectionString : JsVal) : M JsVal :=
  emit (EPoolNew connectionString) ;; ret connectionString.

Definition tempPool_query (pool sql : JsVal) (params : list JsVal)
  : M JsVal :=
  emit (EPoolQuery sql params) ;; lift (poolQuery E pool sql params).

Definition tempPool_end (pool : JsVal) : M unit :=
  emit EPoolEnd ;; lift (poolEnd E pool).

Definition call_parseCSV (content : JsVal) (opts : CsvOptions) : M JsVal :=
  emit (EParseCSV content opts) ;; lift (parseCSV E content opts).

Definition call_fetch (url : JsVal) (opts : FetchOptions)
  : M HttpResponse :=
  emit (EFetch url opts) ;; lift (fetch E url opts).

Definition call_extractRESTData (json resultPath : JsVal) : M JsVal :=
  emit (EExtract json resultPath) ;; lift (extractRESTData E json resultPath).

Definition incomplete_message : string :=
  "Connection configuration is incomplete. Database and user/username are required.".

(** The block every SQL route repeats:
    [if (config.connectionString) connectionString = config.connectionString;
     else { const connStr = buildPgConnectionString(config);
            if (!connStr) return res.status(400).json(...);
            connectionString = connStr; }] *)
Definition resolveConnectionString (config : JsVal) : M JsVal :=
  if truthy (get config "connectionString") then
    ret (get config "connectionString")
  else
    connStr <- call_buildPgConnectionString config ;;
    match connStr with
    | None => reply 400 (msg incomplete_message)
    | Some s =>
        if (s =? "")%string then reply 400 (msg incomplete_message)
        else ret (JStr s)
    end.

(** *** GET /datasets/:id/data *)

(** [config?.csvData || config?.fileContent] *)
Definition csvPayload (config : JsVal) : JsVal :=
  js_or (get_opt config "csvData") (get_opt config "fileContent").

(** The csv branch. *)
Definition csvBranch (connection : Connection) : M JsVal :=
  let config := conn_config connection in
  let csvContent := csvPayload config in
  if negb (truthy config) || negb (truthy csvContent) then
    reply 400 (msg "No CSV data found in connection")
  else
    call_parseCSV csvContent
      {| delimiter := js_or (get config "delimiter") (JStr ",");
         hasHeaders := not_false (get config "hasHeaders");
         quoteChar :=
           js_or (get config "quoteChar")
                 (JStr (String (ascii_of_nat 34) EmptyString));
         trimFields := not_false (get config "trimFields") |}.

(** [fetchOptions.headers] after the auth block. *)
Definition authHeaders (config : JsVal) : JsVal :=
  let headers0 :=
    if truthy (get config "headers") then get config "headers" else JUndef in
  let auth := get config "auth" in
  if truthy auth then
    if is_str (get auth "type") "basic" then
      let credentials :=
        base64 (toStr (get auth "username") ++ ":"
                ++ toStr (get auth "password")) in
      JObj (obj_set (spread headers0) "Authorization"
                    (JStr ("Basic " ++ credentials)))
    else if is_str (get auth "type") "bearer" && truthy (get auth "token") then
      JObj (obj_set (spread headers0) "Authorization"
                    (JStr ("Bearer " ++ toStr (get auth "token"))))
    else headers0
  else headers0.

(** The whole [fetchOptions] as [fetch] receives it. *)
Definition fetchOptions (config : JsVal) : FetchOptions :=
  let headers1 := authHeaders config in
  let method := js_or (get config "method") (JStr "GET") in
  if mutating method && truthy (get config "body") then
    {| fo_headers :=
         JObj (obj_set (spread headers1) "Content-Type"
                       (JStr "application/json"));
       fo_method := method;
       fo_body := Some (get config "body") |}
  else
    {| fo_headers := headers1; fo_method := method; fo_body := None |}.

(** The rest branch. *)
Definition restBranch (connection : Connection) : M JsVal :=
  try_catch
    (let config := conn_config connection in
     if negb (truthy config) || negb (truthy (get config "url")) then
       reply 400 (msg "REST connection URL is missing")
     else
       response <- call_fetch (get config "url") (fetchOptions config) ;;
       (if negb (resp_ok response) then
          throw ("API returned " ++ dec (resp_status response) ++ ": "
                 ++ resp_statusText response)
        else ret tt) ;;
       jsonResponse <- lift (resp_json response) ;;
       call_extractRESTData jsonResponse (get config "resultPath"))
    (fun apiError => reply 400 (msg_err "REST API request failed" apiError)).

(** The statement the sql branch runs. *)
Definition selectQuery (dataset : Dataset) (customQuery : JsVal) : JsVal :=
  let sqlQuery0 := "SELECT * FROM users LIMIT 100" in
  let datasetConfig := ds_config dataset in
  let sqlQuery1 :=
    if query_present (ds_query dataset) then query_text (ds_query dataset)
    else if truthy datasetConfig && typeof_object datasetConfig then
      if truthy (get datasetConfig "table") then
        "SELECT * FROM " ++ toStr (get datasetConfig "table") ++ " LIMIT 100"
      else sqlQuery0
    else sqlQuery0 in
  if truthy customQuery && typeof_string customQuery then customQuery
  else JStr sqlQuery1.

(** The sql branch. *)
Definition sqlBranch (dataset : Dataset) (connection : Connection)
    (customQuery : JsVal) : M JsVal :=
  try_catch
    (let config := conn_config connection in
     if negb (truthy config) then
       reply 400 (msg "Connection configuration is missing")
     else
       connectionString <- resolveConnectionString config ;;
       tempPool <- newPool connectionString ;;
       try_finally
         (tempPool_query tempPool (selectQuery dataset customQuery) [])
         (tempPool_end tempPool))
    (fun dbError => reply 400 (msg_err "SQL query execution failed" dbError)).

Definition getDatasetData (req : DataRequest) : M unit :=
  try_catch
    (dataset <- storage_getDataset (req_id req) ;;
     match dataset with
     | None => reply 404 (msg "Dataset not found")
     | Some dataset =>
         match ds_connectionId dataset with
         | None => reply 400 (msg "Dataset has no associated connection")
         | Some connectionId =>
             connection <- storage_getConnection (JNum connectionId) ;;
             match connection with
             | None => reply 404 (msg "Connection not found")
             | Some connection =>
                 data <-
                   (if (conn_type connection =? "csv")%string then
                      csvBranch connection
                    else if (conn_type connection =? "rest")%string then
                      restBranch connection
                    else if (conn_type connection =? "sql")%string then
                      sqlBranch dataset connection (req_customQuery req)
                    else ret (JArr [])) ;;
                 reply 200 data
             end
         end
     end)
    (fun _ => reply 500 (msg "Internal server error")).

(** *** POST /connections/table-schema *)

(** [const { a, b } = req.body] fails on a missing body. *)
Definition destructure (body : JsVal) : M unit :=
  match body with
  | JUndef => throw "Cannot destructure property of 'req.body' as it is undefined."
  | JNull => throw "Cannot destructure property of 'req.body' as it is null."
  | _ => ret tt
  end.

(** [error.message || "Internal server error"] *)
Definition message_or (e : JsError) (d : string) : string :=
  if (e =? "")%string then d else e.

Definition postTableSchema (body : JsVal) : M unit :=
  try_catch
    (destructure body ;;
     let connectionId := get body "connectionId" in
     let table := get body "table" in
     if negb (truthy connectionId) then
       reply 400 (msg "Connection ID is required")
     else if negb (truthy table) || negb (typeof_string table) then
       reply 400 (msg "Table name is required")
     else
       connection <- storage_getConnection connectionId ;;
       match connection with
       | None => reply 404 (msg "Connection not found")
       | Some connection =>
           if negb (conn_type connection =? "sql")%string then
             reply 400 (msg "Connection must be of type 'sql'")
           else
             try_catch
               (let config := conn_config connection in
                if negb (truthy config) then
                  reply 400 (msg "Connection configuration is missing")
                else
                  connectionString <- resolveConnectionString config ;;
                  tempPool <- newPool connectionString ;;
                  try_finally
                    (rows <- tempPool_query tempPool (JStr schemaQuery)
                                            [table] ;;
                     reply 200 rows)
                    (tempPool_end tempPool))
               (fun dbError =>
                  reply 400 (msg_err "Failed to retrieve table schema"
                                     dbError))
       end)
    (fun error => reply 500 (msg (message_or error "Internal server error"))).

(** *** GET /connections/:id/tables *)

Definition getConnectionTables (id : Z) : M unit :=
  try_catch
    (connection <- storage_getConnection (JNum id) ;;
     match connection with
     | None => reply 404 (msg "Connection not found")
     | Some connection =>
         if negb (conn_type connection =? "sql")%string then
           reply 400 (msg "Connection must be of type 'sql'")
         else
           try_catch
             (let config := conn_config connection in
              if negb (truthy config) then
                reply 400 (msg "Connection configuration is missing")
              else
                connectionString <- resolveConnectionString config ;;
                tempPool <- newPool connectionString ;;
                try_finally
                  (rows <- tempPool_query tempPool (JStr tablesQuery) [] ;;
                   tables <- lift (rows_table_names rows) ;;
                   reply 200 tables)
                  (tempPool_end tempPool))
             (fun dbError =>
                reply 400 (msg_err "Failed to retrieve database tables"
                                   dbError))
     end)
    (fun error => reply 500 (msg (message_or error "Internal server error"))).

(** *** POST /connections/execute-query *)

Definition postExecuteQuery (body : JsVal) : M unit :=
  try_catch
    (destructure body ;;
     let connectionId := get body "connectionId" in
     let query := get body "query" in
     if negb (truthy connectionId) then
       reply 400 (msg "Connection ID is required")
     else if negb (truthy query) || negb (typeof_string query) then
       reply 400 (msg "Valid SQL query is required")
     else
       connection <- storage_getConnection connectionId ;;
       match connection with
       | None => reply 404 (msg "Connection not found")
       | Some connection =>
           if negb (conn_type connection =? "sql")%string then
             reply 400 (msg "Connection must be of type 'sql'")
           else
             try_catch
               (let config := conn_config connection in
                if negb (truthy config) then
                  reply 400 (msg "Connection configuration is missing")
                else
                  connectionString <- resolveConnectionString config ;;
                  tempPool <- newPool connectionString ;;
                  try_finally
                    (rows <- tempPool_query tempPool query [] ;;
                     reply 200 rows)
                    (tempPool_end tempPool))
               (fun dbError =>
                  reply 400 (msg_err "SQL query execution failed" dbError))
       end)
    (fun _ => reply 500 (msg "Internal server error")).

(** *** The execute route of a dataset

    The source text of this handler starts after its connection string
    has been resolved; what is embedded is the text from
    [const tempPool = new Pool({ connectionString })] to the end, with
    the variables it finds in scope ([dataset], [query],
    [connectionString]) as arguments. *)

(** [`WITH dataset_${dataset.id} AS (${dataset.query}) ${query}`] *)
Definition cteQuery (dataset : Dataset) (query : JsVal) : JsVal :=
  if query_present (ds_query dataset) then
    JStr ("WITH dataset_" ++ dec (ds_id dataset) ++ " AS ("
          ++ query_text (ds_query dataset) ++ ") " ++ toStr query)
  else query.

Definition executeDatasetQuery (dataset : Dataset) (query : JsVal)
    (connectionString : JsVal) : M unit :=
  try_catch
    (try_catch
       (tempPool <- newPool connectionString ;;
        try_finally
          (rows <- tempPool_query tempPool (cteQuery dataset query) [] ;;
           reply 200 rows)
          (tempPool_end tempPool))
       (fun dbError =>
          reply 400 (msg_err "SQL query execution failed" dbError)))
    (fun _ => reply 500 (msg "Internal server error")).

End Routes.

Arguments respond st body _ /.
Arguments reply {A} st body _ /.

(** ** The helper whose body is missing *)

(** Modelled from the spec: the body of [buildPgConnectionString] is
    missing from the source text (only its signature
    [(config) => string | null] is there).  The spec has it synthesize a
    connection string from the discrete host/port/database/user fields,
    and the routes answer its failure with "Database and user/username
    are required".  The layout of the synthesized string is not given;
    it is the argument [synth]. *)
Definition buildPgConnectionString_spec (synth : JsVal -> string)
    (config : JsVal) : option string :=
  if truthy (get config "database")
     && (truthy (get config "user") || truthy (get config "username"))
  then Some (synth config)
  else None.

(** ** The life cycle of the ephemeral pool *)

Inductive PoolState : Type := Fresh | Open | Closed.

(** A pool is created once, queried only while open, and ended once;
    the other events leave it as it is. *)
Definition pool_step (s : PoolState) (e : Event) : option PoolState :=
  match e with
  | EPoolNew _ => match s with Fresh => Some Open | _ => None end
  | EPoolQuery _ _ => match s with Open => Some Open | _ => None end
  | EPoolEnd => match s with Open => Some Closed | _ => None end
  | _ => Some s
  end.

Fixpoint pool_run (s : PoolState) (tr : list Event) : option PoolState :=
  match tr with
  | [] => Some s
  | e :: r =>
      match pool_step s e with
      | Some s' => pool_run s' r
      | None => None
      end
  end.

Definition is_new (e : Event) : bool :=
  match e with EPoolNew _ => true | _ => false end.

Definition is_end (e : Event) : bool :=
  match e with EPoolEnd => true | _ => false end.

(** How many pools a trace creates, and how many times it calls
    [end()]. *)
Definition opens (tr : list Event) : nat := length (filter is_new tr).
Definition closes (tr : list Event) : nat := length (filter is_end tr).

(** The events on a pool. *)
Definition pool_events (tr : list Event) : list Event :=
  filter (fun e =>
            match e with
            | EPoolNew _ | EPoolQuery _ _ | EPoolEnd => true
            | _ => false
            end) tr.

(** A complete trace respects the discipline when it either never
    touches a pool, or creates one, uses it, and ends it exactly once. *)
Definition disciplined (tr : list Event) : Prop :=
  (pool_run Fresh tr = Some Fresh /\ opens tr = 0%nat /\ closes tr = 0%nat)
  \/ (pool_run Fresh tr = Some Closed /\ opens tr = 1%nat
      /\ closes tr = 1%nat).

Definition opened (s : PoolState) : nat :=
  match s with Fresh => 0 | _ => 1 end.

Definition ended (s : PoolState) : nat :=
  match s with Closed => 1 | _ => 0 end.

(** *** A weakest-precondition reading of the handlers

    [wp m Q s]: run from any trace with the pool in state [s], [m] only
    appends events, the events it appends are a legal continuation of
    the pool's life, and the completion and the pool state it ends in
    satisfy [Q]. *)
Definition wp {A} (m : M A) (Q : Completion A -> PoolState -> Prop)
    (s : PoolState) : Prop :=
  forall tr, exists ext s',
    snd (m tr) = (tr ++ ext)%list /\ pool_run s ext = Some s'
    /\ Q (fst (m tr)) s'.

(** The completion of [try { } finally { }]. *)
Definition after_finally {A} (c : Completion A) (cf : Completion unit)
  : Completion A :=
  match cf with
  | Normal _ => c
  | Returned => Returned
  | Thrown e => Thrown e
  end.

(** The pool is at rest: never created, or ended. *)
Definition settled {A} (_ : Completion A) (s : PoolState) : Prop :=
  s = Fresh \/ s = Closed.

(** ** Observations on traces *)

(** The request reached the dispatch on the connection type: its
    dataset exists, names a connection, and the connection exists. *)
Definition resolves (E : Env) (req : DataRequest) (dataset : Dataset)
    (connectionId : Z) (connection : Connection) : Prop :=
  getDataset E (req_id req) = Ok (Some dataset)
  /\ ds_connectionId dataset = Some connectionId
  /\ getConnection E (JNum connectionId) = Ok (Some connection).

(** The connection string a config resolves to, if any. *)
Definition resolved (E : Env) (config : JsVal) : option JsVal :=
  if truthy (get config "connectionString") then
    Some (get config "connectionString")
  else
    match buildPgConnectionString E config with
    | Some s => if (s =? "")%string then None else Some (JStr s)
    | None => None
    end.

(** The connection strings pools were created with. *)
Fixpoint pool_strings (tr : list Event) : list JsVal :=
  match tr with
  | [] => []
  | EPoolNew cs :: r => cs :: pool_strings r
  | _ :: r => pool_strings r
  end.

(** The configs [buildPgConnectionString] was called on. *)
Fixpoint synth_calls (tr : list Event) : list JsVal :=
  match tr with
  | [] => []
  | EBuildConnString c :: r => c :: synth_calls r
  | _ :: r => synth_calls r
  end.

(** The outgoing HTTP requests. *)
Fixpoint requests (tr : list Event) : list (JsVal * FetchOptions) :=
  match tr with
  | [] => []
  | EFetch url opts :: r => (url, opts) :: requests r
  | _ :: r => requests r
  end.

(** The calls of [parseCSV]. *)
Fixpoint parse_calls (tr : list Event) : list (JsVal * CsvOptions) :=
  match tr with
  | [] => []
  | EParseCSV content opts :: r => (content, opts) :: parse_calls r
  | _ :: r => parse_calls r
  end.

(** The execute-query route reached its sql block: the body names a
    connection and carries a query string, and the connection exists and
    is a sql one. *)
Definition executes (E : Env) (body : JsVal) (connection : Connection)
  : Prop :=
  truthy (get body "connectionId") = true
  /\ truthy (get body "query") && typeof_string (get body "query") = true
  /\ getConnection E (get body "connectionId") = Ok (Some connection)
  /\ conn_type connection = "sql".

(** ** A fake world for the examples *)
Module Fake.

(** One possible layout of a synthesized connection string. *)
Definition synth (config : JsVal) : string :=
  "postgresql://"
  ++ toStr (js_or (get config "user") (get config "username"))
  ++ "@" ++ toStr (js_or (get config "host") (JStr "localhost"))
  ++ "/" ++ toStr (get config "database").

Definition env (ds : option Dataset) (conn : option Connection)
    (rows : Outcome JsVal) (closing : Outcome unit)
    (http : Outcome HttpResponse) : Env :=
  {| getDataset := fun _ => Ok ds;
     getConnection := fun _ => Ok conn;
     buildPgConnectionString := buildPgConnectionString_spec synth;
     poolQuery := fun _ _ _ => rows;
     poolEnd := fun _ => closing;
     parseCSV := fun _ _ => Ok (JArr [JObj [("a", JStr "1"); ("b", JStr "2")]]);
     fetch := fun _ _ => http;
     extractRESTData := fun json _ => Ok json |}.

Definition dataset5 : Dataset :=
  {| ds_id := 5; ds_connectionId := Some 1;
     ds_query := Some "SELECT a FROM t"; ds_config := JNull |}.

Definition sqlConn (config : JsVal) : Connection :=
  {| conn_id := 1; conn_type := "sql"; conn_config := config |}.

Definition withString : JsVal :=
  JObj [("connectionString", JStr "postgresql://u@h/db");
        ("database", JStr "other"); ("user", JStr "v")].

Definition someRows : JsVal := JArr [JObj [("a", JNum 1)]].

Definition noHttp : Outcome HttpResponse := Err "fetch failed".

Definition req5 (customQuery : JsVal) : DataRequest :=
  {| req_id := 5; req_customQuery := customQuery |}.

Definition conn (type : string) (config : JsVal) : Connection :=
  {| conn_id := 1; conn_type := type; conn_config := config |}.

Definition world (connection : Connection) (rows : Outcome JsVal) : Env :=
  env (Some dataset5) (Some connection) rows (Ok tt) noHttp.

Definition noUser : JsVal := JObj [("database", JStr "shop")].

Definition plain : Dataset :=
  {| ds_id := 7; ds_connectionId := Some 1; ds_query := None;
     ds_config := JObj [("table", JStr "orders")] |}.

Definition queryBody : JsVal :=
  JObj [("connectionId", JNum 1); ("query", JStr "SELECT 1")].

Definition basicRest : JsVal :=
  JObj [("url", JStr "https://api.example.com/items");
        ("auth", JObj [("type", JStr "basic"); ("username", JStr "user");
                       ("password", JStr "pass")])].

Definition unavailable : HttpResponse :=
  {| resp_ok := false; resp_status := 503;
     resp_statusText := "Service Unavailable"; resp_json := Ok JNull |}.

Definition restWorld : Env :=
  env (Some dataset5) (Some (conn "rest" basicRest)) (Ok someRows) (Ok tt)
      (Ok unavailable).

Definition semicolons : JsVal :=
  JObj [("csvData", JStr "a;b"); ("delimiter", JStr ";");
        ("hasHeaders", JBool false);
        ("quoteChar", JStr "'")].

Definition orphan : Dataset :=
  {| ds_id := 5; ds_connectionId := None; ds_query := None;
     ds_config := JNull |}.

End Fake.

(** ** Trace automata

    A property of the order or number of a handler's calls is read as
    an automaton over events; [tracks step m Q s] says that from state
    [s] the events [m] appends are accepted by the automaton, and the
    completion and the state reached satisfy [Q]. *)
Section Automaton.

Context {S : Type} (step : S -> Event -> S -> Prop).

Fixpoint runs (s : S) (tr : list Event) (s' : S) : Prop :=
  match tr with
  | [] => s' = s
  | e :: r => exists s1, step s e s1 /\ runs s1 r s'
  end.

Definition tracks {A} (m : M A) (Q : Completion A -> S -> Prop) (s : S)
  : Prop :=
  forall tr, exists ext s',
    snd (m tr) = (tr ++ ext)%list /\ runs s ext s'
    /\ Q (fst (m tr)) s'.

End Automaton.

(** The automaton that counts the responses sent. *)
Definition is_respond (e : Event) : bool :=
  match e with ERespond _ _ => true | _ => false end.

Definition count_step (n : nat) (e : Event) (n' : nat) : Prop :=
  n' = if is_respond e then Datatypes.S n else n.

(** The automaton that accepts the events satisfying [P]. *)
Definition every (P : Event -> Prop) (_ : unit) (e : Event) (s' : unit)
  : Prop := s' = tt /\ P e.

(** Every query in the trace is the statement [sql] with the
    parameters [params]. *)
Definition queries_only (sql : JsVal) (params : list JsVal) (e : Event)
  : Prop :=
  match e with
  | EPoolQuery q ps => q = sql /\ ps = params
  | _ => True
  end.

(** The options the csv branch hands to [parseCSV]. *)
Definition csvOptions (config : JsVal) : CsvOptions :=
  {| delimiter := js_or (get config "delimiter") (JStr ",");
     hasHeaders := not_false (get config "hasHeaders");
     quoteChar :=
       js_or (get config "quoteChar")
             (JStr (String (ascii_of_nat 34) EmptyString));
     trimFields := not_false (get config "trimFields") |}.

(** The request reached the rest branch with a url, so an upstream
    request is made. *)
Definition requests_upstream (E : Env) (req : DataRequest)
    (dataset : Dataset) (connectionId : Z) (connection : Connection)
  : Prop :=
  resolves E req dataset connectionId connection
  /\ conn_type connection = "rest"
  /\ truthy (get (conn_config connection) "url") = true.

(** The request reached the sql branch and its connection string
    resolved to [cs], so a pool is created. *)
Definition opens_pool (E : Env) (req : DataRequest)
    (dataset : Dataset) (connectionId : Z) (connection : Connection)
    (cs : JsVal) : Prop :=
  resolves E req dataset connectionId connection
  /\ conn_type connection = "sql"
  /\ truthy (conn_config connection) = true
  /\ resolved E (conn_config connection) = Some cs.

(** Neither [null] nor [undefined]. *)
Definition defined (v : JsVal) : bool :=
  match v with
  | JUndef | JNull => false
  | _ => true
  end.

(** ** The registry of WebSocket clients (services/openai)

    [activeClients] is a module-level [Set] of sockets.  A socket is
    named by a number; the set is the list of its members in insertion
    order, which is the order [forEach] visits them in.  What a socket's
    [readyState] reads and whether its [send] throws belong to the
    socket, not to the registry, and are given from outside; an
    exception of [close] is caught and changes nothing. *)
Module Ws.

Inductive ReadyState : Type := CONNECTING | OPEN | CLOSING | CLOSED.

Definition Socket : Type := nat.

(** What is handed to [client.send]: the message itself when it is a
    string, the JSON text of the message otherwise. *)
Inductive Payload : Type :=
| Text (s : string)
| JsonOf (v : JsVal).

Record Sockets : Type := mkSockets {
  readyState : Socket -> ReadyState;
  sendThrows : Socket -> Payload -> bool
}.

(** The registry and the marks the module leaves on its sockets: the
    [isAlive] flag and the listeners for the close event. *)
Record Registry : Type := mkRegistry {
  activeClients : list Socket;
  isAlive : Socket -> bool;
  closeListeners : list Socket
}.

Definition empty : Registry :=
  {| activeClients := []; isAlive := fun _ => false; closeListeners := [] |}.

(** [Set.prototype.has], [add] and [delete]. *)
Definition has (c : Socket) (l : list Socket) : bool :=
  existsb (Nat.eqb c) l.

Definition add (c : Socket) (l : list Socket) : list Socket :=
  if has c l then l else (l ++ [c])%list.

Definition delete (c : Socket) (l : list Socket) : list Socket :=
  filter (fun x => negb (Nat.eqb x c)) l.

(** [typeof message === 'string' ? message : JSON.stringify(message)] *)
Definition messageString (message : JsVal) : Payload :=
  match message with
  | JStr s => Text s
  | v => JsonOf v
  end.

(** The body of [activeClients.forEach]: the calls of [send] made, in
    order, and the [deadClients] collected. *)
Fixpoint visit (W : Sockets) (payload : Payload) (clients : list Socket)
  : list (Socket * Payload) * list Socket :=
  match clients with
  | [] => ([], [])
  | client :: rest =>
      let (sends, deadClients) := visit W payload rest in
      match readyState W client with
      | OPEN =>
          if sendThrows W client payload then
            ((client, payload) :: sends, client :: deadClients)
          else ((client, payload) :: sends, deadClients)
      | CLOSED | CLOSING => (sends, client :: deadClients)
      | CONNECTING => (sends, deadClients)
      end
  end.

(** [broadcastWebSocketMessage(message)]: the registry afterwards and
    the calls of [send] made. *)
Definition broadcastWebSocketMessage (W : Sockets) (message : JsVal)
    (R : Registry) : Registry * list (Socket * Payload) :=
  let (sends, deadClients) :=
    visit W (messageString message) (activeClients R) in
  ({| activeClients :=
        fold_left (fun active client => delete client active)
                  deadClients (activeClients R);
      isAlive := isAlive R;
      closeListeners := closeListeners R |},
   sends).

(** [registerWebSocketClient(client)]; [None] is a missing client. *)
Definition registerWebSocketClient (W : Sockets) (client : option Socket)
    (R : Registry) : Registry :=
  match client with
  | None => R
  | Some c =>
      match readyState W c with
      | CLOSED => R
      | _ =>
          {| activeClients := add c (activeClients R);
             isAlive := fun x => if Nat.eqb x c then true else isAlive R x;
             closeListeners := (closeListeners R ++ [c])%list |}
      end
  end.

(** [unregisterWebSocketClient(client)]: the registry afterwards and
    the sockets [close()] was called on. *)
Definition unregisterWebSocketClient (W : Sockets) (client : option Socket)
    (R : Registry) : Registry * list Socket :=
  match client with
  | None => (R, [])
  | Some c =>
      ({| activeClients := delete c (activeClients R);
          isAlive := isAlive R;
          closeListeners := closeListeners R |},
       match readyState W c with
       | CLOSED | CLOSING => []
       | _ => [c]
       end)
  end.

(** The close event of socket [c]: each listener registered on it runs
    [activeClients.delete(client)]. *)
Definition closeEvent (c : Socket) (R : Registry) : Registry :=
  if has c (closeListeners R) then
    {| activeClients := delete c (activeClients R);
       isAlive := isAlive R;
       closeListeners := closeListeners R |}
  else R.

(** A client the broadcast drops: closed or closing, or open with a
    [send] that throws. *)
Definition dropped (W : Sockets) (payload : Payload) (c : Socket) : bool :=
  match readyState W c with
  | OPEN => sendThrows W c payload
  | CLOSED | CLOSING => true
  | CONNECTING => false
  end.

Definition is_open (W : Sockets) (c : Socket) : bool :=
  match readyState W c with
  | OPEN => true
  | _ => false
  end.

End Ws.

(** The registries the module can be in: it starts empty and changes
    only through its three functions and the close events of the
    sockets. *)
Inductive reachable : Ws.Registry -> Prop :=
| reach_empty : reachable Ws.empty
| reach_register W client R :
    reachable R -> reachable (Ws.registerWebSocketClient W client R)
| reach_unregister W client R :
    reachable R -> reachable (fst (Ws.unregisterWebSocketClient W client R))
| reach_broadcast W message R :
    reachable R -> reachable (fst (Ws.broadcastWebSocketMessage W message R))
| reach_close c R :
    reachable R -> reachable (Ws.closeEvent c R).

(** ** More sample worlds *)
Module Samples.

Definition custom (ds : Outcome (option Dataset))
    (conn : Outcome (option Connection)) (rows : Outcome JsVal)
    (closing : Outcome unit) (http : Outcome HttpResponse)
    (parsed extracted : Outcome JsVal) : Env :=
  {| getDataset := fun _ => ds;
     getConnection := fun _ => conn;
     buildPgConnectionString := buildPgConnectionString_spec Fake.synth;
     poolQuery := fun _ _ _ => rows;
     poolEnd := fun _ => closing;
     parseCSV := fun _ _ => parsed;
     fetch := fun _ _ => http;
     extractRESTData := fun _ _ => extracted |}.

(** A world around one connection of dataset 5. *)
Definition around (connection : Connection) (rows : Outcome JsVal)
    (closing : Outcome unit) (http : Outcome HttpResponse)
    (parsed extracted : Outcome JsVal) : Env :=
  custom (Ok (Some Fake.dataset5)) (Ok (Some connection)) rows closing http
         parsed extracted.

Definition quiet : Outcome JsVal := Ok (JArr []).

Definition okResponse (json : Outcome JsVal) : HttpResponse :=
  {| resp_ok := true; resp_status := 200; resp_statusText := "OK";
     resp_json := json |}.

Definition items : JsVal :=
  JObj [("items", JArr [JObj [("id", JNum 1)]])].

Definition restConfig (auth : JsVal) : JsVal :=
  JObj [("url", JStr "https://api.example.com/items");
        ("resultPath", JStr "items"); ("auth", auth)].

Definition bearer (token : JsVal) : JsVal :=
  JObj [("type", JStr "bearer"); ("token", token)].

Definition posting : JsVal :=
  JObj [("url", JStr "https://api.example.com/search");
        ("method", JStr "POST");
        ("headers", JObj [("Content-Type", JStr "text/plain")]);
        ("body", JObj [("q", JStr "a")])].

Definition csvText : JsVal := JObj [("csvData", JStr "a,b")].

Definition bare : Dataset :=
  {| ds_id := 9; ds_connectionId := Some 1; ds_query := None;
     ds_config := JNull |}.

Definition tableRows : list JsVal :=
  [JObj [("table_name", JStr "orders")];
   JObj [("table_name", JStr "users")]].

Definition schemaBody : JsVal :=
  JObj [("connectionId", JNum 1); ("table", JStr "orders")].

Definition sockets (state : nat -> Ws.ReadyState) : Ws.Sockets :=
  {| Ws.readyState := state; Ws.sendThrows := fun _ _ => false |}.

Definition allOpen : Ws.Sockets := sockets (fun _ => Ws.OPEN).

Definition dbUrl : JsVal := JStr "postgresql://u@h/db".

Definition csvWorld : Env :=
  around (Fake.conn "csv" csvText) quiet (Ok tt) Fake.noHttp quiet quiet.

Definition restDown : Env :=
  around (Fake.conn "rest" (restConfig JUndef)) quiet (Ok tt) Fake.noHttp
         quiet quiet.

Definition sqlWorld : Env :=
  around (Fake.sqlConn Fake.withString) quiet (Ok tt) Fake.noHttp quiet quiet.

(** Basic auth beside a configured header spelled in lower case. *)
Definition respelled : JsVal :=
  JObj [("url", JStr "https://api.example.com/items");
        ("headers", JObj [("authorization", JStr "Token abc")]);
        ("auth", JObj [("type", JStr "basic"); ("username", JStr "user");
                       ("password", JStr "pass")])].

Definition accepting : JsVal :=
  JObj [("url", JStr "https://api.example.com/items");
        ("headers", JObj [("Accept", JStr "application/json")]);
        ("auth", JObj [("type", JStr "basic"); ("username", JStr "user");
                       ("password", JStr "pass")])].

End Samples.

(** ** Reaching the pool *)

(** The trace creates one pool and ends it once, after its last use. *)
Definition closed_once (tr : list Event) : Prop :=
  pool_run Fresh tr = Some Closed
  /\ opens tr = 1%nat /\ closes tr = 1%nat.

(** The connection has a config whose connection string resolves to
    [cs], so the route goes on to create a pool with it. *)
Definition pool_for (E : Env) (connection : Connection) (cs : JsVal)
  : Prop :=
  truthy (conn_config connection) = true
  /\ resolved E (conn_config connection) = Some cs.

(** The table-schema route reached its sql block. *)
Definition describes (E : Env) (body : JsVal) (connection : Connection)
  : Prop :=
  truthy (get body "connectionId") = true
  /\ truthy (get body "table") && typeof_string (get body "table") = true
  /\ getConnection E (get body "connectionId") = Ok (Some connection)
  /\ conn_type connection = "sql".

(** The tables route reached its sql block. *)
Definition lists (E : Env) (id : Z) (connection : Connection) : Prop :=
  getConnection E (JNum id) = Ok (Some connection)
  /\ conn_type connection = "sql".

(** ** The headers of the request, as [fetch] reads them

    [fetch] fills the header list of its request from the own
    properties of [options.headers], in order: each value is turned
    into a string and loses its leading and trailing HTTP whitespace,
    and the header is appended, also when the list already has a header
    of that name.  Names are compared without regard to case, and the
    value of a header is the values of all headers of that name, joined
    by a comma and a space.  (A name or value that is not valid makes
    [fetch] throw, which is an answer of [fetch] in [Env].) *)
Module Http.

Definition lower_ascii (c : ascii) : ascii :=
  let n := N_of_ascii c in
  if ((65 <=? n) && (n <=? 90))%N then ascii_of_N (n + 32) else c.

Fixpoint lower (s : string) : string :=
  match s with
  | EmptyString => EmptyString
  | String c r => String (lower_ascii c) (lower r)
  end.

(** A byte-case-insensitive match of two header names. *)
Definition same_name (a b : string) : bool := (lower a =? lower b)%string.

(** Tab, line feed, carriage return, space. *)
Definition whitespace (c : ascii) : bool :=
  let n := N_of_ascii c in
  ((n =? 9) || (n =? 10) || (n =? 13) || (n =? 32))%N.

Fixpoint strip_leading (s : string) : string :=
  match s with
  | EmptyString => EmptyString
  | String c r => if whitespace c then strip_leading r else s
  end.

Fixpoint strip_trailing (s : string) : string :=
  match s with
  | EmptyString => EmptyString
  | String c r =>
      let r' := strip_trailing r in
      if (r' =? "")%string && whitespace c then EmptyString
      else String c r'
  end.

Definition normalize (s : string) : string :=
  strip_trailing (strip_leading s).

(** The header list filled from [options.headers]: nothing when it is
    [undefined], one header per property when it is an object. *)
Definition header_list (headers : JsVal) : list (string * string) :=
  match headers with
  | JObj fs => map (fun kv => (fst kv, normalize (toStr (snd kv)))) fs
  | _ => []
  end.

Fixpoint values_of (name : string) (l : list (string * string))
  : list string :=
  match l with
  | [] => []
  | (k, v) :: r =>
      if same_name k name then v :: values_of name r else values_of name r
  end.

(** The value of the header [name] of the request, if it has one. *)
Definition header (headers : JsVal) (name : string) : option string :=
  match values_of name (header_list headers) with
  | [] => None
  | vs => Some (String.concat ", " vs)
  end.

End Http.

(** The configured headers are absent or a plain object. *)
Definition record_or_absent (headers : JsVal) : Prop :=
  truthy headers = false \/ exists fs, headers = JObj fs.

(** Each key of the configured headers occurs once, as in any
    JavaScript object, and none of them spells [name] in another
    case. *)
Definition spelled_once (name : string) (headers : JsVal) : Prop :=
  NoDup (map fst (spread headers))
  /\ forall k, In k (map fst (spread headers)) ->
               Http.same_name k name = true -> k = name.

(** No byte of [s] is HTTP whitespace. *)
Fixpoint no_whitespace (s : string) : bool :=
  match s with
  | EmptyString => true
  | String c r => negb (Http.whitespace c) && no_whitespace r
  end.

(** The values [toStr] prints as a template literal does: all but the
    integers of twenty-two digits or more, which JavaScript prints with
    an exponent (arrays, whose elements may be such integers, are left
    out). *)
Definition prints_plainly (v : JsVal) : bool :=
  match v with
  | JNum z => Z.abs z <? 10 ^ 21
  | JArr _ => false
  | _ => true
  end.

(** * Proofs *)

(** ** The value model on known inputs *)

Example dec_5 : dec 5 = "5".
Proof. reflexivity. Qed.

Example toStr_array :
  toStr (JArr [JNum 1; JNull; JStr "a"; JArr [JNum 2; JNum 3]]) = "1,,a,2,3".
Proof. reflexivity. Qed.

Example base64_rfc4648 :
  base64 "" = "" /\ base64 "f" = "Zg==" /\ base64 "fo" = "Zm8=" /\
  base64 "foo" = "Zm9v" /\ base64 "foob" = "Zm9vYg==" /\
  base64 "fooba" = "Zm9vYmE=" /\ base64 "foobar" = "Zm9vYmFy".
Proof. repeat split; reflexivity. Qed.

Example base64_credentials : base64 "user:pass" = "dXNlcjpwYXNz".
Proof. reflexivity. Qed.

Lemma pool_run_app (a b : list Event) (s : PoolState) :
  pool_run s (a ++ b) =
  match pool_run s a with
  | Some s' => pool_run s' b
  | None => None
  end.
Proof.
  revert s; induction a as [|e a IH]; intros s; simpl; [reflexivity|].
  destruct (pool_step s e); [apply IH | reflexivity].
Qed.

Lemma pool_run_counts (tr : list Event) :
  forall s s', pool_run s tr = Some s' ->
    (opens tr + opened s = opened s' /\ closes tr + ended s = ended s')%nat.
Proof.
  unfold opens, closes.
  induction tr as [|e tr IH]; simpl; intros s s' H.
  - injection H as <-. split; reflexivity.
  - destruct (pool_step s e) as [s1|] eqn:Hs; [|discriminate].
    destruct (IH _ _ H) as [Ho Hc].
    destruct e, s; simpl in Hs; try discriminate;
      injection Hs as <-; simpl in *; lia.
Qed.

Lemma settled_disciplined (tr : list Event) (s : PoolState) :
  pool_run Fresh tr = Some s -> s = Fresh \/ s = Closed -> disciplined tr.
Proof.
  intros H Hs. destruct (pool_run_counts _ _ _ H) as [Ho Hc].
  destruct Hs as [-> | ->]; [left | right]; simpl in *;
    (split; [assumption | lia]).
Qed.

Section WpRules.

Context {A B : Type}.

Lemma wp_ret (a : A) Q s : Q (Normal a) s -> wp (ret a) Q s.
Proof.
  intros H tr. exists [], s. simpl. rewrite app_nil_r. auto.
Qed.

Lemma wp_throw (e : JsError) (Q : Completion A -> PoolState -> Prop) s :
  Q (Thrown e) s -> wp (throw e) Q s.
Proof.
  intros H tr. exists [], s. simpl. rewrite app_nil_r. auto.
Qed.

Lemma wp_exit (Q : Completion A -> PoolState -> Prop) s :
  Q Returned s -> wp exit Q s.
Proof.
  intros H tr. exists [], s. simpl. rewrite app_nil_r. auto.
Qed.

Lemma wp_lift (o : Outcome A) Q s :
  (forall a, Q (Normal a) s) -> (forall e, Q (Thrown e) s) ->
  wp (lift o) Q s.
Proof.
  intros Hn He. destruct o; simpl; [apply wp_ret | apply wp_throw]; auto.
Qed.

Lemma wp_emit (e : Event) Q s s' :
  pool_step s e = Some s' -> Q (Normal tt) s' -> wp (emit e) Q s.
Proof.
  intros Hs H tr. exists [e], s'. simpl. rewrite Hs. auto.
Qed.

Lemma wp_bind (m : M A) (k : A -> M B) Q s :
  wp m (fun c s' =>
          match c with
          | Normal a => wp (k a) Q s'
          | Returned => Q Returned s'
          | Thrown e => Q (Thrown e) s'
          end) s ->
  wp (bind m k) Q s.
Proof.
  intros H tr. destruct (H tr) as (ext & s1 & Htr & Hrun & Hq).
  unfold bind. destruct (m tr) as [c tr1]. simpl in *. subst tr1.
  destruct c as [a| |e].
  - destruct (Hq (tr ++ ext)%list) as (ext2 & s2 & Htr2 & Hrun2 & Hq2).
    exists (ext ++ ext2)%list, s2. rewrite Htr2, app_assoc, pool_run_app, Hrun.
    auto.
  - exists ext, s1. auto.
  - exists ext, s1. auto.
Qed.

Lemma wp_try_catch (body : M A) (handler : JsError -> M A) Q s :
  wp body (fun c s' =>
             match c with
             | Thrown e => wp (handler e) Q s'
             | _ => Q c s'
             end) s ->
  wp (try_catch body handler) Q s.
Proof.
  intros H tr. destruct (H tr) as (ext & s1 & Htr & Hrun & Hq).
  unfold try_catch. destruct (body tr) as [c tr1]. simpl in *. subst tr1.
  destruct c as [a| |e].
  - exists ext, s1. auto.
  - exists ext, s1. auto.
  - destruct (Hq (tr ++ ext)%list) as (ext2 & s2 & Htr2 & Hrun2 & Hq2).
    exists (ext ++ ext2)%list, s2. rewrite Htr2, app_assoc, pool_run_app, Hrun.
    auto.
Qed.

Lemma wp_try_finally (body : M A) (fin : M unit) Q s :
  wp body (fun c s' => wp fin (fun cf s'' => Q (after_finally c cf) s'') s') s ->
  wp (try_finally body fin) Q s.
Proof.
  intros H tr. destruct (H tr) as (ext & s1 & Htr & Hrun & Hq).
  unfold try_finally. destruct (body tr) as [c tr1]. simpl in *. subst tr1.
  destruct (Hq (tr ++ ext)%list) as (ext2 & s2 & Htr2 & Hrun2 & Hq2).
  exists (ext ++ ext2)%list, s2.
  destruct (fin (tr ++ ext)%list) as [cf tr2]. simpl in *. subst tr2.
  rewrite app_assoc, pool_run_app, Hrun.
  destruct cf; simpl in *; auto.
Qed.

End WpRules.

Lemma wp_trace {A} (m : M A) Q :
  wp m Q Fresh ->
  exists s', pool_run Fresh (trace_of m) = Some s' /\ Q (fst (m [])) s'.
Proof.
  intros H. destruct (H []) as (ext & s' & Htr & Hrun & Hq).
  exists s'. unfold trace_of. rewrite Htr. simpl. auto.
Qed.

(** One backward step through a handler. *)
Ltac wp_step :=
  lazymatch goal with
  | |- wp (bind _ _) _ _ => apply wp_bind
  | |- wp (try_catch _ _) _ _ => apply wp_try_catch
  | |- wp (try_finally _ _) _ _ => apply wp_try_finally
  | |- wp (ret _) _ _ => apply wp_ret
  | |- wp (throw _) _ _ => apply wp_throw
  | |- wp exit _ _ => apply wp_exit
  | |- wp (lift _) _ _ => apply wp_lift; intros
  | |- wp (emit _) _ _ => eapply wp_emit; [reflexivity|]
  | |- wp (if ?b then _ else _) _ _ => destruct b
  | |- wp (match ?x with _ => _ end) _ _ => destruct x
  end; cbn beta iota delta [after_finally].

Ltac wp_run := repeat wp_step; auto.

Section Discipline.

Variable E : Env.

Lemma wp_resolveConnectionString config Q :
  Q Returned Fresh -> (forall cs, Q (Normal cs) Fresh) ->
  wp (resolveConnectionString E config) Q Fresh.
Proof.
  intros Hr Hn.
  unfold resolveConnectionString, call_buildPgConnectionString, reply, respond.
  wp_run.
Qed.

Lemma wp_getDatasetData req : wp (getDatasetData E req) settled Fresh.
Proof.
  unfold getDatasetData, csvBranch, restBranch, sqlBranch, reply, respond,
    storage_getDataset, storage_getConnection, newPool, tempPool_query,
    tempPool_end, call_parseCSV, call_fetch, call_extractRESTData, settled.
  repeat (wp_step || (apply wp_resolveConnectionString; [|intros])); auto.
Qed.

Lemma wp_postTableSchema body : wp (postTableSchema E body) settled Fresh.
Proof.
  unfold postTableSchema, destructure, reply, respond, storage_getConnection,
    newPool, tempPool_query, tempPool_end, settled.
  repeat (wp_step || (apply wp_resolveConnectionString; [|intros])); auto.
Qed.

Lemma wp_getConnectionTables id : wp (getConnectionTables E id) settled Fresh.
Proof.
  unfold getConnectionTables, reply, respond, storage_getConnection,
    newPool, tempPool_query, tempPool_end, settled.
  repeat (wp_step || (apply wp_resolveConnectionString; [|intros])); auto.
Qed.

Lemma wp_postExecuteQuery body : wp (postExecuteQuery E body) settled Fresh.
Proof.
  unfold postExecuteQuery, destructure, reply, respond, storage_getConnection,
    newPool, tempPool_query, tempPool_end, settled.
  repeat (wp_step || (apply wp_resolveConnectionString; [|intros])); auto.
Qed.

Lemma wp_executeDatasetQuery dataset query cs :
  wp (executeDatasetQuery E dataset query cs) settled Fresh.
Proof.
  unfold executeDatasetQuery, reply, respond, newPool, tempPool_query,
    tempPool_end, settled.
  wp_run.
Qed.

Lemma settled_trace {A} (m : M A) :
  wp m settled Fresh -> disciplined (trace_of m).
Proof.
  intros H. destruct (wp_trace _ _ H) as (s & Hrun & Hs).
  exact (settled_disciplined _ _ Hrun Hs).
Qed.

End Discipline.

(** ** Traces of the data route *)

Arguments selectQuery : simpl never.
Arguments fetchOptions : simpl never.
Arguments cteQuery : simpl never.
Arguments base64 : simpl never.
Arguments dec : simpl never.
Arguments msg : simpl never.
Arguments msg_err : simpl never.

Ltac route :=
  unfold trace_of, getDatasetData, postExecuteQuery, executeDatasetQuery,
    csvBranch, restBranch, sqlBranch, destructure,
    resolveConnectionString, call_buildPgConnectionString,
    storage_getDataset, storage_getConnection, newPool, tempPool_query,
    tempPool_end, call_parseCSV, call_fetch, call_extractRESTData,
    reply, respond, try_catch, try_finally, bind, emit, lift, ret, throw, exit;
  cbn beta iota.

(** Enter the data route up to the dispatch. *)
Ltac enter H :=
  let Hds := fresh "Hds" in
  let Hcid := fresh "Hcid" in
  let Hconn := fresh "Hconn" in
  destruct H as (Hds & Hcid & Hconn);
  route; rewrite Hds; cbn; rewrite Hcid; cbn; rewrite Hconn; cbn.

Lemma truthy_field_object (config : JsVal) (k : string) :
  truthy (get config k) = true -> truthy config = true.
Proof. destruct config; simpl; intros H; try discriminate; reflexivity. Qed.

Lemma lookup_obj_set_same (fs : list (string * JsVal)) k v :
  lookup k (obj_set fs k v) = v.
Proof.
  induction fs as [|[k' v'] fs IH]; simpl.
  - rewrite String.eqb_refl. reflexivity.
  - destruct (k =? k')%string eqn:Hk; simpl.
    + rewrite String.eqb_refl. reflexivity.
    + rewrite Hk. exact IH.
Qed.

Lemma lookup_obj_set_other (fs : list (string * JsVal)) k k' v :
  (k =? k')%string = false -> lookup k (obj_set fs k' v) = lookup k fs.
Proof.
  intros Hk. induction fs as [|[k1 v1] fs IH]; simpl.
  - rewrite Hk. reflexivity.
  - destruct (k' =? k1)%string eqn:Hk1; simpl.
    + apply String.eqb_eq in Hk1. subst k1. rewrite Hk. reflexivity.
    + destruct (k =? k1)%string; [reflexivity | exact IH].
Qed.

(** C10. A dataset whose connectionId is null is answered 400 "Dataset
    has no associated connection" right after the dataset lookup: no
    connection is looked up and no pool is created. *)
Theorem null_connection_is_400 (E : Env) (req : DataRequest)
    (dataset : Dataset) :
  getDataset E (req_id req) = Ok (Some dataset) ->
  ds_connectionId dataset = None ->
  trace_of (getDatasetData E req) =
  [EGetDataset (req_id req);
   ERespond 400 (msg "Dataset has no associated connection")].
Proof.
  intros Hds Hnull. route. rewrite Hds. cbn. rewrite Hnull. reflexivity.
Qed.

(** C9. A connection whose type is none of csv, rest and sql is answered
    200 with an empty array of rows. *)
Theorem unknown_type_is_200_empty (E : Env) (req : DataRequest)
    (dataset : Dataset) (connectionId : Z) (connection : Connection) :
  resolves E req dataset connectionId connection ->
  conn_type connection <> "csv" ->
  conn_type connection <> "rest" ->
  conn_type connection <> "sql" ->
  trace_of (getDatasetData E req) =
  [EGetDataset (req_id req); EGetConnection (JNum connectionId);
   ERespond 200 (JArr [])].
Proof.
  intros H Hcsv Hrest Hsql.
  apply String.eqb_neq in Hcsv, Hrest, Hsql.
  enter H. rewrite Hcsv, Hrest, Hsql. reflexivity.
Qed.

(** *** The csv branch *)

Lemma csvPayload_object (config : JsVal) :
  truthy (csvPayload config) = true -> truthy config = true.
Proof.
  unfold csvPayload, js_or.
  destruct config; simpl; intros H; try discriminate; reflexivity.
Qed.

(** C8. A csv connection without a payload is answered 400 and nothing
    is parsed; with a payload, [parseCSV] is called once, on the payload,
    with the delimiter, header flag and quote character the config sets,
    and the rows it yields are the answer. *)
Theorem csv_payload_or_400 (E : Env) (req : DataRequest)
    (dataset : Dataset) (connectionId : Z) (connection : Connection) :
  resolves E req dataset connectionId connection ->
  conn_type connection = "csv" ->
  let config := conn_config connection in
  let tr := trace_of (getDatasetData E req) in
  (truthy (csvPayload config) = false ->
   tr = [EGetDataset (req_id req); EGetConnection (JNum connectionId);
         ERespond 400 (msg "No CSV data found in connection")])
  /\ (truthy (csvPayload config) = true ->
      exists opts,
        parse_calls tr = [(csvPayload config, opts)]
        /\ (truthy (get config "delimiter") = true ->
            delimiter opts = get config "delimiter")
        /\ (forall b, get config "hasHeaders" = JBool b -> hasHeaders opts = b)
        /\ (truthy (get config "quoteChar") = true ->
            quoteChar opts = get config "quoteChar")
        /\ (forall rows, parseCSV E (csvPayload config) opts = Ok rows ->
            responses tr = [(200, rows)])).
Proof.
  intros H Htype config tr. subst tr. split; intros Hp.
  - enter H. rewrite Htype. cbn. fold config. rewrite Hp, orb_true_r.
    reflexivity.
  - pose proof (csvPayload_object _ Hp) as Hc.
    eexists. enter H. rewrite Htype. cbn. fold config.
    rewrite Hp, Hc. cbn [negb orb].
    split; [|split; [|split; [|split]]].
    + destruct (parseCSV E _ _); reflexivity.
    + intros Hd. cbn. unfold js_or. rewrite Hd. reflexivity.
    + intros b Hb. cbn. rewrite Hb. destruct b; reflexivity.
    + intros Hq. cbn. unfold js_or. rewrite Hq. reflexivity.
    + intros rows Hrows. rewrite Hrows. reflexivity.
Qed.

(** *** The rest branch *)

Lemma basic_auth_object (config : JsVal) :
  is_str (get (get config "auth") "type") "basic" = true ->
  truthy (get config "auth") = true.
Proof.
  destruct (get config "auth"); simpl; intros H; try discriminate; reflexivity.
Qed.

Lemma fetchOptions_basic (config : JsVal) :
  is_str (get (get config "auth") "type") "basic" = true ->
  get (fo_headers (fetchOptions config)) "Authorization"
  = JStr ("Basic "
          ++ base64 (toStr (get (get config "auth") "username") ++ ":"
                     ++ toStr (get (get config "auth") "password"))).
Proof.
  intros Hb. pose proof (basic_auth_object _ Hb) as Ha.
  unfold fetchOptions, authHeaders. rewrite Ha, Hb.
  destruct (mutating _ && truthy _); cbn [fo_headers get spread].
  - rewrite lookup_obj_set_other by reflexivity.
    apply lookup_obj_set_same.
  - apply lookup_obj_set_same.
Qed.

(** The headers object of a rest connection with basic auth, read by
    the key Authorization as the route writes it: one request is sent,
    and the property is "Basic " followed by the base64 text of
    username, a colon, and password. *)
Theorem basic_auth_header (E : Env) (req : DataRequest)
    (dataset : Dataset) (connectionId : Z) (connection : Connection) :
  resolves E req dataset connectionId connection ->
  conn_type connection = "rest" ->
  let config := conn_config connection in
  truthy (get config "url") = true ->
  is_str (get (get config "auth") "type") "basic" = true ->
  exists opts,
    requests (trace_of (getDatasetData E req)) = [(get config "url", opts)]
    /\ get (fo_headers opts) "Authorization"
       = JStr ("Basic "
               ++ base64 (toStr (get (get config "auth") "username") ++ ":"
                          ++ toStr (get (get config "auth") "password"))).
Proof.
  intros H Htype config Hurl Hb.
  exists (fetchOptions config). split; [|exact (fetchOptions_basic _ Hb)].
  pose proof (truthy_field_object _ _ Hurl) as Hc.
  enter H. rewrite Htype. cbn. fold config. rewrite Hc, Hurl. cbn.
  destruct (fetch E _ _) as [response|e]; cbn; [|reflexivity].
  destruct (resp_ok response); cbn; [|reflexivity].
  destruct (resp_json response); cbn; [|reflexivity].
  destruct (extractRESTData E _ _); reflexivity.
Qed.

(** C7. When the upstream answers with a status that is not ok, the
    rest fetch is answered 400 "REST API request failed" with the error
    text "API returned <status>: <statusText>"; the body is not read
    and no rows are sent. *)
Theorem upstream_failure_is_400 (E : Env) (req : DataRequest)
    (dataset : Dataset) (connectionId : Z) (connection : Connection)
    (response : HttpResponse) :
  resolves E req dataset connectionId connection ->
  conn_type connection = "rest" ->
  let config := conn_config connection in
  truthy (get config "url") = true ->
  fetch E (get config "url") (fetchOptions config) = Ok response ->
  resp_ok response = false ->
  trace_of (getDatasetData E req) =
  [EGetDataset (req_id req); EGetConnection (JNum connectionId);
   EFetch (get config "url") (fetchOptions config);
   ERespond 400
     (msg_err "REST API request failed"
        ("API returned " ++ dec (resp_status response) ++ ": "
         ++ resp_statusText response))].
Proof.
  intros H Htype config Hurl Hfetch Hok.
  pose proof (truthy_field_object _ _ Hurl) as Hc.
  enter H. rewrite Htype. cbn. fold config. rewrite Hc, Hurl. cbn.
  rewrite Hfetch. cbn. rewrite Hok. reflexivity.
Qed.

(** *** The sql branch *)

Lemma resolveConnectionString_some (E : Env) (config cs : JsVal) tr :
  resolved E config = Some cs ->
  resolveConnectionString E config tr =
  (Normal cs,
   if truthy (get config "connectionString") then tr
   else (tr ++ [EBuildConnString config])%list).
Proof.
  unfold resolved, resolveConnectionString, call_buildPgConnectionString,
    reply, respond, bind, emit, ret, exit.
  destruct (truthy (get config "connectionString")).
  - intros [= <-]. reflexivity.
  - destruct (buildPgConnectionString E config) as [s|]; [|discriminate].
    destruct (s =? "")%string; [discriminate|].
    intros [= <-]. reflexivity.
Qed.

Lemma resolveConnectionString_none (E : Env) (config : JsVal) tr :
  resolved E config = None ->
  resolveConnectionString E config tr =
  (Returned,
   (tr ++ [EBuildConnString config])
     ++ [ERespond 400 (msg incomplete_message)])%list.
Proof.
  unfold resolved, resolveConnectionString, call_buildPgConnectionString,
    reply, respond, bind, emit, ret, exit.
  destruct (truthy (get config "connectionString")); [discriminate|].
  destruct (buildPgConnectionString E config) as [s|]; [|reflexivity].
  destruct (s =? "")%string; [reflexivity | discriminate].
Qed.

Ltac enter_sql H :=
  let Hds := fresh "Hds" in
  let Hcid := fresh "Hcid" in
  let Hconn := fresh "Hconn" in
  destruct H as (Hds & Hcid & Hconn);
  unfold trace_of, getDatasetData, sqlBranch, storage_getDataset,
    storage_getConnection, newPool, tempPool_query, tempPool_end,
    reply, respond, try_catch, try_finally, bind, emit, lift, ret, throw, exit;
  cbn beta iota; rewrite Hds; cbn; rewrite Hcid; cbn; rewrite Hconn; cbn.

(** The whole trace of a sql data fetch whose connection string
    resolves: the two lookups, the call of the helper when the config
    has no connection string, then one pool created, queried once with
    the selected statement and ended, then one response. *)
Lemma sql_fetch_trace (E : Env) (req : DataRequest)
    (dataset : Dataset) (connectionId : Z) (connection : Connection)
    (cs : JsVal) :
  resolves E req dataset connectionId connection ->
  conn_type connection = "sql" ->
  truthy (conn_config connection) = true ->
  resolved E (conn_config connection) = Some cs ->
  exists st body,
    trace_of (getDatasetData E req) =
    ([EGetDataset (req_id req); EGetConnection (JNum connectionId)]
     ++ (if truthy (get (conn_config connection) "connectionString") then []
         else [EBuildConnString (conn_config connection)])
     ++ [EPoolNew cs;
         EPoolQuery (selectQuery dataset (req_customQuery req)) [];
         EPoolEnd; ERespond st body])%list.
Proof.
  intros H Htype Hc Hres. enter_sql H. rewrite Htype. cbn. rewrite Hc. cbn.
  rewrite (resolveConnectionString_some _ _ _ _ Hres).
  destruct (truthy (get (conn_config connection) "connectionString")); cbn;
    destruct (poolQuery E _ _ _), (poolEnd E _); cbn; eauto.
Qed.

Lemma selectQuery_override (dataset : Dataset) (q : string) :
  q <> "" -> selectQuery dataset (JStr q) = JStr q.
Proof.
  intros Hq. apply String.eqb_neq in Hq.
  unfold selectQuery. cbn. rewrite Hq. reflexivity.
Qed.

Lemma selectQuery_stored (dataset : Dataset) (customQuery : JsVal) (q : string) :
  truthy customQuery && typeof_string customQuery = false ->
  ds_query dataset = Some q -> q <> "" ->
  selectQuery dataset customQuery = JStr q.
Proof.
  intros Hcq Hds Hq. apply String.eqb_neq in Hq.
  unfold selectQuery. rewrite Hcq, Hds. cbn. rewrite Hq. reflexivity.
Qed.

Lemma selectQuery_table (dataset : Dataset) (customQuery : JsVal) :
  truthy customQuery && typeof_string customQuery = false ->
  query_present (ds_query dataset) = false ->
  truthy (get (ds_config dataset) "table") = true ->
  selectQuery dataset customQuery =
  JStr ("SELECT * FROM " ++ toStr (get (ds_config dataset) "table")
        ++ " LIMIT 100").
Proof.
  intros Hcq Hds Ht.
  unfold selectQuery. rewrite Hcq, Hds, Ht.
  rewrite (truthy_field_object _ _ Ht).
  destruct (ds_config dataset); simpl in Ht; try discriminate. reflexivity.
Qed.

(** C4. A sql data fetch runs exactly one statement: the request's
    customQuery when it is a non-empty string; otherwise the dataset's
    stored query when it has one; otherwise, when the dataset's config
    names a table, SELECT * FROM <table> LIMIT 100. *)
Theorem query_precedence (E : Env) (req : DataRequest)
    (dataset : Dataset) (connectionId : Z) (connection : Connection)
    (cs : JsVal) :
  resolves E req dataset connectionId connection ->
  conn_type connection = "sql" ->
  truthy (conn_config connection) = true ->
  resolved E (conn_config connection) = Some cs ->
  let customQuery := req_customQuery req in
  let absent := truthy customQuery && typeof_string customQuery = false in
  exists chosen,
    executed (trace_of (getDatasetData E req)) = [chosen]
    /\ (forall q, customQuery = JStr q -> q <> "" -> chosen = JStr q)
    /\ (absent -> forall q, ds_query dataset = Some q -> q <> "" ->
        chosen = JStr q)
    /\ (absent -> query_present (ds_query dataset) = false ->
        truthy (get (ds_config dataset) "table") = true ->
        chosen = JStr ("SELECT * FROM "
                       ++ toStr (get (ds_config dataset) "table")
                       ++ " LIMIT 100")).
Proof.
  intros H Htype Hc Hres customQuery absent.
  destruct (sql_fetch_trace _ _ _ _ _ _ H Htype Hc Hres) as (st & body & Htr).
  exists (selectQuery dataset customQuery). split; [|split; [|split]].
  - rewrite Htr.
    destruct (truthy (get (conn_config connection) "connectionString"));
      reflexivity.
  - intros q Hq Hne. subst customQuery. rewrite Hq.
    exact (selectQuery_override _ _ Hne).
  - intros Ha q Hq Hne. exact (selectQuery_stored _ _ _ Ha Hq Hne).
  - intros Ha Hq Ht. exact (selectQuery_table _ _ Ha Hq Ht).
Qed.

(** C5. When the config of a sql connection has a connectionString, the
    pool is created with that very value and [buildPgConnectionString]
    is not called, on the data route and on the execute-query route. *)
Theorem connection_string_verbatim (E : Env) :
  (forall req dataset connectionId connection,
      resolves E req dataset connectionId connection ->
      conn_type connection = "sql" ->
      truthy (get (conn_config connection) "connectionString") = true ->
      pool_strings (trace_of (getDatasetData E req))
      = [get (conn_config connection) "connectionString"]
      /\ synth_calls (trace_of (getDatasetData E req)) = [])
  /\ (forall body connection,
         executes E body connection ->
         truthy (get (conn_config connection) "connectionString") = true ->
         pool_strings (trace_of (postExecuteQuery E body))
         = [get (conn_config connection) "connectionString"]
         /\ synth_calls (trace_of (postExecuteQuery E body)) = []).
Proof.
  split.
  - intros req dataset connectionId connection H Htype Hcs.
    assert (Hres : resolved E (conn_config connection)
                   = Some (get (conn_config connection) "connectionString"))
      by (unfold resolved; rewrite Hcs; reflexivity).
    destruct (sql_fetch_trace _ _ _ _ _ _ H Htype
                (truthy_field_object _ _ Hcs) Hres) as (st & b & Htr).
    rewrite Htr, Hcs. split; reflexivity.
  - intros body connection (Hid & Hq & Hconn & Htype) Hcs.
    pose proof (truthy_field_object _ _ Hcs) as Hc.
    apply andb_prop in Hq. destruct Hq as [Hq1 Hq2].
    route. destruct body; try discriminate Hid. cbn.
    cbn in Hid, Hq1, Hq2, Hconn. rewrite Hid, Hq1, Hq2. cbn.
    rewrite Hconn. cbn. rewrite Htype. cbn. rewrite Hc, Hcs. cbn.
    destruct (poolQuery E _ _ _), (poolEnd E _); cbn; split; reflexivity.
Qed.

(** The trace of a sql data fetch whose connection string does not
    resolve: the route answers 400 and stops before any pool. *)
Lemma unresolvable_trace (E : Env) (req : DataRequest)
    (dataset : Dataset) (connectionId : Z) (connection : Connection) :
  resolves E req dataset connectionId connection ->
  conn_type connection = "sql" ->
  resolved E (conn_config connection) = None ->
  trace_of (getDatasetData E req) =
  ([EGetDataset (req_id req); EGetConnection (JNum connectionId)]
   ++ (if truthy (conn_config connection) then
         [EBuildConnString (conn_config connection);
          ERespond 400 (msg incomplete_message)]
       else [ERespond 400 (msg "Connection configuration is missing")]))%list.
Proof.
  intros H Htype Hres. enter_sql H. rewrite Htype. cbn.
  destruct (truthy (conn_config connection)); cbn; [|reflexivity].
  rewrite (resolveConnectionString_none _ _ _ Hres). reflexivity.
Qed.

(** C3. A sql connection whose config has no connectionString and lacks
    the database or both of user and username is answered 400, and no
    pool is created, queried or ended. *)
Theorem incomplete_sql_config_is_400 (E : Env) (synth : JsVal -> string)
    (req : DataRequest) (dataset : Dataset) (connectionId : Z)
    (connection : Connection) :
  buildPgConnectionString E = buildPgConnectionString_spec synth ->
  resolves E req dataset connectionId connection ->
  conn_type connection = "sql" ->
  let config := conn_config connection in
  truthy (get config "connectionString") = false ->
  truthy (get config "database")
  && (truthy (get config "user") || truthy (get config "username")) = false ->
  responses (trace_of (getDatasetData E req)) =
  [(400, msg (if truthy config then incomplete_message
              else "Connection configuration is missing"))]
  /\ pool_events (trace_of (getDatasetData E req)) = [].
Proof.
  intros Hhelper H Htype config Hcs Hfields.
  assert (Hres : resolved E config = None).
  { unfold resolved. rewrite Hcs, Hhelper.
    unfold buildPgConnectionString_spec. rewrite Hfields. reflexivity. }
  rewrite (unresolvable_trace _ _ _ _ _ H Htype Hres). fold config.
  destruct (truthy config); split; reflexivity.
Qed.

(** *** The execute route of a dataset *)

(** C1, as amended. On the execute route of a dataset with a stored
    query, the one statement run is the stored query wrapped as the
    common table expression dataset_<id>, followed by the request's
    query. *)
Theorem cte_wraps_dataset_query (E : Env) (dataset : Dataset)
    (stored override : string) (connectionString : JsVal) :
  ds_query dataset = Some stored ->
  stored <> "" ->
  executed (trace_of (executeDatasetQuery E dataset (JStr override)
                                          connectionString))
  = [JStr ("WITH dataset_" ++ dec (ds_id dataset) ++ " AS (" ++ stored
           ++ ") " ++ override)].
Proof.
  intros Hq Hne. apply String.eqb_neq in Hne.
  route. unfold cteQuery. rewrite Hq. cbn. rewrite Hne. cbn.
  destruct (poolQuery E _ _ _), (poolEnd E _); reflexivity.
Qed.

(** ** The pool is ended exactly once *)

Ltac pool_paths E connection :=
  destruct (truthy (get (conn_config connection) "connectionString")); cbn;
  repeat match goal with
         | |- context [poolQuery E ?a ?b ?c] => destruct (poolQuery E a b c); cbn
         | |- context [rows_table_names ?r] => destruct (rows_table_names r); cbn
         | |- context [poolEnd E ?a] => destruct (poolEnd E a); cbn
         end;
  repeat split; reflexivity.

(** On the data route a resolved connection string gives one pool,
    ended once, whatever the query and [end()] do. *)
Lemma data_route_closes_once (E : Env) (req : DataRequest)
    (dataset : Dataset) (connectionId : Z) (connection : Connection)
    (cs : JsVal) :
  resolves E req dataset connectionId connection ->
  conn_type connection = "sql" ->
  pool_for E connection cs ->
  closed_once (trace_of (getDatasetData E req)).
Proof.
  intros H Htype [Hc Hcs].
  destruct (sql_fetch_trace _ _ _ _ _ _ H Htype Hc Hcs) as (st & body & Htr).
  rewrite Htr.
  destruct (truthy (get (conn_config connection) "connectionString"));
    repeat split; reflexivity.
Qed.

Lemma execute_query_closes_once (E : Env) (body : JsVal)
    (connection : Connection) (cs : JsVal) :
  executes E body connection ->
  pool_for E connection cs ->
  closed_once (trace_of (postExecuteQuery E body)).
Proof.
  intros (Hid & Hq & Hconn & Htype) [Hc Hcs].
  apply andb_prop in Hq. destruct Hq as [Hq1 Hq2].
  unfold closed_once, trace_of, postExecuteQuery, destructure,
    storage_getConnection, newPool, tempPool_query, tempPool_end,
    reply, respond, try_catch, try_finally, bind, emit, lift, ret, throw,
    exit.
  destruct body; try discriminate Hid. cbn.
  cbn in Hid, Hq1, Hq2, Hconn. rewrite Hid, Hq1, Hq2. cbn.
  rewrite Hconn. cbn. rewrite Htype. cbn. rewrite Hc. cbn.
  rewrite (resolveConnectionString_some _ _ _ _ Hcs).
  pool_paths E connection.
Qed.

Lemma table_schema_closes_once (E : Env) (body : JsVal)
    (connection : Connection) (cs : JsVal) :
  describes E body connection ->
  pool_for E connection cs ->
  closed_once (trace_of (postTableSchema E body)).
Proof.
  intros (Hid & Hq & Hconn & Htype) [Hc Hcs].
  apply andb_prop in Hq. destruct Hq as [Hq1 Hq2].
  unfold closed_once, trace_of, postTableSchema, destructure,
    storage_getConnection, newPool, tempPool_query, tempPool_end,
    reply, respond, try_catch, try_finally, bind, emit, lift, ret, throw,
    exit.
  destruct body; try discriminate Hid. cbn.
  cbn in Hid, Hq1, Hq2, Hconn. rewrite Hid, Hq1, Hq2. cbn.
  rewrite Hconn. cbn. rewrite Htype. cbn. rewrite Hc. cbn.
  rewrite (resolveConnectionString_some _ _ _ _ Hcs).
  pool_paths E connection.
Qed.

Lemma tables_closes_once (E : Env) (id : Z) (connection : Connection)
    (cs : JsVal) :
  lists E id connection ->
  pool_for E connection cs ->
  closed_once (trace_of (getConnectionTables E id)).
Proof.
  intros (Hconn & Htype) [Hc Hcs].
  unfold closed_once, trace_of, getConnectionTables,
    storage_getConnection, newPool, tempPool_query, tempPool_end,
    reply, respond, try_catch, try_finally, bind, emit, lift, ret, throw,
    exit.
  cbn. rewrite Hconn. cbn. rewrite Htype. cbn. rewrite Hc. cbn.
  rewrite (resolveConnectionString_some _ _ _ _ Hcs).
  pool_paths E connection.
Qed.

Lemma execute_dataset_closes_once (E : Env) (dataset : Dataset)
    (query connectionString : JsVal) :
  closed_once (trace_of (executeDatasetQuery E dataset query
                                             connectionString)).
Proof.
  unfold closed_once, trace_of, executeDatasetQuery, newPool, tempPool_query,
    tempPool_end, reply, respond, try_catch, try_finally, bind, emit, lift,
    ret, throw, exit.
  cbn.
  destruct (poolQuery E _ _ _), (poolEnd E _); cbn; repeat split;
    reflexivity.
Qed.


(** ** The theorems at concrete requests *)
Module Examples.

Import Fake.

Lemma world_resolves connection rows customQuery :
  resolves (world connection rows) (req5 customQuery) dataset5 1 connection.
Proof. repeat split. Defined.

(** C1: the sentence fails on the data route, where a customQuery
    replaces the stored query instead of being run against it. *)
Lemma data_route_runs_override_alone :
  executed (trace_of (getDatasetData (world (sqlConn withString) (Ok someRows))
                                     (req5 (JStr "SELECT * FROM dataset_5"))))
  = [JStr "SELECT * FROM dataset_5"]
  /\ executed (trace_of (getDatasetData
                           (world (sqlConn withString) (Ok someRows))
                           (req5 (JStr "SELECT * FROM dataset_5"))))
     <> [JStr "WITH dataset_5 AS (SELECT a FROM t) SELECT * FROM dataset_5"].
Proof. split; [reflexivity | discriminate]. Qed.

Lemma cte_wraps_dataset_query_witness :
  executed (trace_of (executeDatasetQuery
                        (world (sqlConn withString) (Ok someRows))
                        dataset5 (JStr "SELECT * FROM dataset_5")
                        (JStr "postgresql://u@h/db")))
  = [JStr "WITH dataset_5 AS (SELECT a FROM t) SELECT * FROM dataset_5"].
Proof.
  apply (cte_wraps_dataset_query _ dataset5 "SELECT a FROM t"
           "SELECT * FROM dataset_5"); [reflexivity | discriminate].
Defined.

(** C2 on the fake pool: one [end()] when the query succeeds, one when
    it fails, one when [end()] itself fails. *)
Example closed_once_on_success :
  closes (trace_of (getDatasetData (world (sqlConn withString) (Ok someRows))
                                   (req5 JUndef))) = 1%nat.
Proof. reflexivity. Qed.

Example closed_once_on_sql_error :
  closes (trace_of (getDatasetData
                      (world (sqlConn withString) (Err "syntax error"))
                      (req5 JUndef))) = 1%nat.
Proof. reflexivity. Qed.

Example closed_once_when_end_fails :
  closes (trace_of (postExecuteQuery
                      (env None (Some (sqlConn withString)) (Ok someRows)
                           (Err "end failed") noHttp)
                      (JObj [("connectionId", JNum 1);
                             ("query", JStr "SELECT 1")]))) = 1%nat.
Proof. reflexivity. Qed.

Example closed_once_on_bad_row :
  closes (trace_of (getConnectionTables
                      (world (sqlConn withString) (Ok (JArr [JNull]))) 1))
  = 1%nat.
Proof. reflexivity. Qed.

Lemma incomplete_sql_config_is_400_witness :
  responses (trace_of (getDatasetData (world (sqlConn noUser) (Ok someRows))
                                      (req5 JUndef)))
  = [(400, msg incomplete_message)]
  /\ pool_events (trace_of (getDatasetData
                              (world (sqlConn noUser) (Ok someRows))
                              (req5 JUndef))) = [].
Proof.
  apply (incomplete_sql_config_is_400 _ synth (req5 JUndef) dataset5 1
           (sqlConn noUser));
    [reflexivity | apply world_resolves | reflexivity | reflexivity
    | reflexivity].
Defined.

Lemma query_precedence_witness :
  executed (trace_of (getDatasetData
                        (env (Some plain) (Some (sqlConn withString))
                             (Ok someRows) (Ok tt) noHttp)
                        (req5 JUndef)))
  = [JStr "SELECT * FROM orders LIMIT 100"].
Proof.
  destruct (query_precedence
              (env (Some plain) (Some (sqlConn withString))
                   (Ok someRows) (Ok tt) noHttp)
              (req5 JUndef) plain 1 (sqlConn withString)
              (JStr "postgresql://u@h/db"))
    as (chosen & Hrun & _ & _ & Htable);
    [repeat split | reflexivity | reflexivity | reflexivity |].
  rewrite Hrun, Htable; reflexivity.
Defined.

Lemma connection_string_verbatim_witness :
  pool_strings (trace_of (getDatasetData
                            (world (sqlConn withString) (Ok someRows))
                            (req5 JUndef)))
  = [JStr "postgresql://u@h/db"]
  /\ synth_calls (trace_of (postExecuteQuery
                              (world (sqlConn withString) (Ok someRows))
                              queryBody)) = [].
Proof.
  destruct (connection_string_verbatim
              (world (sqlConn withString) (Ok someRows))) as [Hdata Hexec].
  split.
  - apply (Hdata (req5 JUndef) dataset5 1 (sqlConn withString));
      [apply world_resolves | reflexivity | reflexivity].
  - apply (Hexec queryBody (sqlConn withString));
      [repeat split | reflexivity].
Defined.

Lemma basic_auth_header_witness :
  exists opts,
    requests (trace_of (getDatasetData restWorld (req5 JUndef)))
    = [(JStr "https://api.example.com/items", opts)]
    /\ get (fo_headers opts) "Authorization" = JStr "Basic dXNlcjpwYXNz".
Proof.
  apply (basic_auth_header restWorld (req5 JUndef) dataset5 1
           (conn "rest" basicRest));
    [repeat split | reflexivity | reflexivity | reflexivity].
Defined.

Lemma upstream_failure_is_400_witness :
  responses (trace_of (getDatasetData restWorld (req5 JUndef)))
  = [(400, msg_err "REST API request failed"
                   "API returned 503: Service Unavailable")].
Proof.
  rewrite (upstream_failure_is_400 restWorld (req5 JUndef) dataset5 1
             (conn "rest" basicRest) unavailable);
    [reflexivity | repeat split | reflexivity | reflexivity | reflexivity
    | reflexivity].
Defined.

Lemma csv_payload_or_400_witness :
  trace_of (getDatasetData (world (conn "csv" (JObj [])) (Ok someRows))
                           (req5 JUndef))
  = [EGetDataset 5; EGetConnection (JNum 1);
     ERespond 400 (msg "No CSV data found in connection")]
  /\ exists opts,
      parse_calls (trace_of (getDatasetData
                               (world (conn "csv" semicolons) (Ok someRows))
                               (req5 JUndef)))
      = [(csvPayload semicolons, opts)]
      /\ delimiter opts = JStr ";" /\ hasHeaders opts = false
      /\ quoteChar opts = JStr "'".
Proof.
  split.
  - apply (csv_payload_or_400 (world (conn "csv" (JObj [])) (Ok someRows))
             (req5 JUndef) dataset5 1 (conn "csv" (JObj [])));
      [repeat split | reflexivity | reflexivity].
  - destruct (csv_payload_or_400
                (world (conn "csv" semicolons) (Ok someRows))
                (req5 JUndef) dataset5 1 (conn "csv" semicolons))
      as [_ Hparse]; [repeat split | reflexivity |].
    destruct (Hparse eq_refl) as (opts & Hcall & Hd & Hh & Hq & _).
    exists opts. repeat split;
      [exact Hcall | exact (Hd eq_refl) | exact (Hh false eq_refl)
      | exact (Hq eq_refl)].
Defined.

Lemma unknown_type_is_200_empty_witness :
  trace_of (getDatasetData (world (conn "mongo" JNull) (Ok someRows))
                           (req5 JUndef))
  = [EGetDataset 5; EGetConnection (JNum 1); ERespond 200 (JArr [])].
Proof.
  apply (unknown_type_is_200_empty _ (req5 JUndef) dataset5 1
           (conn "mongo" JNull));
    [repeat split | discriminate | discriminate | discriminate].
Defined.

Lemma null_connection_is_400_witness :
  trace_of (getDatasetData (env (Some orphan) None (Ok someRows) (Ok tt) noHttp)
                           (req5 JUndef))
  = [EGetDataset 5;
     ERespond 400 (msg "Dataset has no associated connection")].
Proof.
  apply (null_connection_is_400 _ (req5 JUndef) orphan); reflexivity.
Defined.

End Examples.

(** * More of the routes *)

(** ** The calculus of trace automata *)

Section TracksRules.

Context {S : Type} (step : S -> Event -> S -> Prop).
Context {A B : Type}.

Lemma runs_app (a b : list Event) (s s1 s2 : S) :
  runs step s a s1 -> runs step s1 b s2 -> runs step s (a ++ b) s2.
Proof.
  revert s; induction a as [|e a IH]; simpl; intros s Ha Hb.
  - subst s1. exact Hb.
  - destruct Ha as (s' & Hs & Ha). exists s'. split; [exact Hs|].
    exact (IH _ Ha Hb).
Qed.

Lemma tracks_ret (a : A) Q s : Q (Normal a) s -> tracks step (ret a) Q s.
Proof.
  intros H tr. exists [], s. simpl. rewrite app_nil_r. auto.
Qed.

Lemma tracks_throw (e : JsError) (Q : Completion A -> S -> Prop) s :
  Q (Thrown e) s -> tracks step (throw e) Q s.
Proof.
  intros H tr. exists [], s. simpl. rewrite app_nil_r. auto.
Qed.

Lemma tracks_exit (Q : Completion A -> S -> Prop) s :
  Q Returned s -> tracks step exit Q s.
Proof.
  intros H tr. exists [], s. simpl. rewrite app_nil_r. auto.
Qed.

Lemma tracks_lift (o : Outcome A) Q s :
  (forall a, o = Ok a -> Q (Normal a) s) ->
  (forall e, o = Err e -> Q (Thrown e) s) ->
  tracks step (lift o) Q s.
Proof.
  intros Hn He. destruct o; simpl; [apply tracks_ret | apply tracks_throw];
    auto.
Qed.

Lemma tracks_emit (e : Event) Q s s' :
  step s e s' -> Q (Normal tt) s' -> tracks step (emit e) Q s.
Proof.
  intros Hs H tr. exists [e], s'. simpl. eauto.
Qed.

Lemma tracks_bind (m : M A) (k : A -> M B) Q s :
  tracks step m
    (fun c s' =>
       match c with
       | Normal a => tracks step (k a) Q s'
       | Returned => Q Returned s'
       | Thrown e => Q (Thrown e) s'
       end) s ->
  tracks step (bind m k) Q s.
Proof.
  intros H tr. destruct (H tr) as (ext & s1 & Htr & Hrun & Hq).
  unfold bind. destruct (m tr) as [c tr1]. simpl in *. subst tr1.
  destruct c as [a| |e].
  - destruct (Hq (tr ++ ext)%list) as (ext2 & s2 & Htr2 & Hrun2 & Hq2).
    exists (ext ++ ext2)%list, s2. rewrite Htr2, app_assoc.
    split; [reflexivity|]. split; [exact (runs_app _ _ _ _ _ Hrun Hrun2)|].
    exact Hq2.
  - exists ext, s1. auto.
  - exists ext, s1. auto.
Qed.

Lemma tracks_try_catch (body : M A) (handler : JsError -> M A) Q s :
  tracks step body
    (fun c s' =>
       match c with
       | Thrown e => tracks step (handler e) Q s'
       | _ => Q c s'
       end) s ->
  tracks step (try_catch body handler) Q s.
Proof.
  intros H tr. destruct (H tr) as (ext & s1 & Htr & Hrun & Hq).
  unfold try_catch. destruct (body tr) as [c tr1]. simpl in *. subst tr1.
  destruct c as [a| |e].
  - exists ext, s1. auto.
  - exists ext, s1. auto.
  - destruct (Hq (tr ++ ext)%list) as (ext2 & s2 & Htr2 & Hrun2 & Hq2).
    exists (ext ++ ext2)%list, s2. rewrite Htr2, app_assoc.
    split; [reflexivity|]. split; [exact (runs_app _ _ _ _ _ Hrun Hrun2)|].
    exact Hq2.
Qed.

Lemma tracks_try_finally (body : M A) (fin : M unit) Q s :
  tracks step body
    (fun c s' =>
       tracks step fin (fun cf s'' => Q (after_finally c cf) s'') s') s ->
  tracks step (try_finally body fin) Q s.
Proof.
  intros H tr. destruct (H tr) as (ext & s1 & Htr & Hrun & Hq).
  unfold try_finally. destruct (body tr) as [c tr1]. simpl in *. subst tr1.
  destruct (Hq (tr ++ ext)%list) as (ext2 & s2 & Htr2 & Hrun2 & Hq2).
  exists (ext ++ ext2)%list, s2.
  destruct (fin (tr ++ ext)%list) as [cf tr2]. simpl in *. subst tr2.
  rewrite app_assoc. pose proof (runs_app _ _ _ _ _ Hrun Hrun2) as Hr.
  destruct cf; simpl in *; auto.
Qed.

Lemma tracks_trace (m : M A) Q s :
  tracks step m Q s ->
  exists s', runs step s (trace_of m) s' /\ Q (fst (m [])) s'.
Proof.
  intros H. destruct (H []) as (ext & s' & Htr & Hrun & Hq).
  exists s'. unfold trace_of. rewrite Htr. simpl. auto.
Qed.

End TracksRules.

Lemma runs_count (tr : list Event) :
  forall n n', runs count_step n tr n' ->
    n' = (n + length (responses tr))%nat.
Proof.
  induction tr as [|e tr IH]; simpl; intros n n' H.
  - subst n'. lia.
  - destruct H as (n1 & Hs & H). apply IH in H. unfold count_step in Hs.
    destruct e; simpl in *; subst n1; lia.
Qed.

Lemma runs_every (P : Event -> Prop) (tr : list Event) :
  runs (every P) tt tr tt -> Forall P tr.
Proof.
  induction tr as [|e tr IH]; simpl; intros H; [constructor|].
  destruct H as ([] & [_ Hs] & H). constructor; [exact Hs | exact (IH H)].
Qed.

(** One backward step; [side] settles the automaton's step. *)
Ltac tracks_step side :=
  lazymatch goal with
  | |- tracks _ (bind _ _) _ _ => apply tracks_bind
  | |- tracks _ (try_catch _ _) _ _ => apply tracks_try_catch
  | |- tracks _ (try_finally _ _) _ _ => apply tracks_try_finally
  | |- tracks _ (ret _) _ _ => apply tracks_ret
  | |- tracks _ (throw _) _ _ => apply tracks_throw
  | |- tracks _ exit _ _ => apply tracks_exit
  | |- tracks _ (lift _) _ _ => apply tracks_lift; intros
  | |- tracks _ (emit _) _ _ => eapply tracks_emit; [side|]
  | |- tracks _ (if ?b then _ else _) _ _ => destruct b eqn:?
  | |- tracks _ (match ?x with _ => _ end) _ _ => destruct x eqn:?
  end; cbn beta iota delta [after_finally].

Ltac count_side := unfold count_step; simpl; reflexivity.

Ltac unfold_routes :=
  unfold getDatasetData, postExecuteQuery, postTableSchema,
    getConnectionTables, executeDatasetQuery,
    csvBranch, restBranch, sqlBranch, destructure,
    resolveConnectionString, call_buildPgConnectionString,
    storage_getDataset, storage_getConnection, newPool, tempPool_query,
    tempPool_end, call_parseCSV, call_fetch, call_extractRESTData,
    reply, respond.

(** ** Every request gets one answer *)

(** X1. Whatever the storage, the upstream, the database and the parser
    answer or throw, the data route sends exactly one response. *)
Theorem data_route_answers_once (E : Env) (req : DataRequest) :
  length (responses (trace_of (getDatasetData E req))) = 1%nat.
Proof.
  assert (H : tracks count_step (getDatasetData E req)
                (fun _ n => n = 1%nat) 0%nat).
  { unfold_routes. repeat tracks_step count_side; reflexivity. }
  destruct (tracks_trace _ _ _ _ H) as (n & Hrun & Hn).
  apply runs_count in Hrun. lia.
Qed.

(** X2. When [end()] does not fail, the other SQL routes send exactly
    one response too, whatever the storage and the database answer. *)
Theorem sql_routes_answer_once (E : Env) :
  (forall pool, poolEnd E pool = Ok tt) ->
  (forall body,
      length (responses (trace_of (postExecuteQuery E body))) = 1%nat)
  /\ (forall id,
         length (responses (trace_of (getConnectionTables E id))) = 1%nat)
  /\ (forall body,
         length (responses (trace_of (postTableSchema E body))) = 1%nat)
  /\ (forall dataset query connectionString,
         length (responses (trace_of (executeDatasetQuery E dataset query
                                        connectionString))) = 1%nat).
Proof.
  intros Hend.
  assert (Hone : forall m : M unit,
             tracks count_step m (fun _ n => n = 1%nat) 0%nat ->
             length (responses (trace_of m)) = 1%nat).
  { intros m H. destruct (tracks_trace _ _ _ _ H) as (n & Hrun & Hn).
    apply runs_count in Hrun. lia. }
  repeat split; intros; apply Hone; unfold_routes;
    repeat tracks_step count_side;
    try reflexivity;
    exfalso;
    match goal with
    | H : poolEnd E _ = Err _ |- _ => rewrite Hend in H; discriminate H
    end.
Qed.

(** ** The auxiliary routes run only their fixed statement *)

(** X3. On the table-schema route the text of every query is the fixed
    statement over information_schema.columns and the requested table
    travels as its one parameter; on the tables route every query is the
    fixed statement over information_schema.tables, without parameters.
    Nothing from the request enters the SQL text. *)
Theorem auxiliary_queries_are_fixed (E : Env) :
  (forall body,
      Forall (queries_only (JStr schemaQuery) [get body "table"])
             (trace_of (postTableSchema E body)))
  /\ (forall id,
         Forall (queries_only (JStr tablesQuery) [])
                (trace_of (getConnectionTables E id))).
Proof.
  split; intros.
  - assert (H : tracks (every (queries_only (JStr schemaQuery)
                                            [get body "table"]))
                  (postTableSchema E body) (fun _ _ => True) tt).
    { unfold_routes.
      repeat tracks_step ltac:(unfold every, queries_only; auto);
        exact I. }
    destruct (tracks_trace _ _ _ _ H) as ([] & Hrun & _).
    exact (runs_every _ _ Hrun).
  - assert (H : tracks (every (queries_only (JStr tablesQuery) []))
                  (getConnectionTables E id) (fun _ _ => True) tt).
    { unfold_routes.
      repeat tracks_step ltac:(unfold every, queries_only; auto);
        exact I. }
    destruct (tracks_trace _ _ _ _ H) as ([] & Hrun & _).
    exact (runs_every _ _ Hrun).
Qed.

(** ** The data route: lookups and failures *)

(** X4. A dataset id that does not resolve is answered 404 "Dataset not
    found" right after the lookup; a dataset whose connection does not
    resolve is answered 404 "Connection not found" right after the
    second lookup.  Nothing is parsed, fetched or queried. *)
Theorem stale_ids_are_404 (E : Env) (req : DataRequest) :
  (getDataset E (req_id req) = Ok None ->
   trace_of (getDatasetData E req) =
   [EGetDataset (req_id req); ERespond 404 (msg "Dataset not found")])
  /\ (forall dataset connectionId,
         getDataset E (req_id req) = Ok (Some dataset) ->
         ds_connectionId dataset = Some connectionId ->
         getConnection E (JNum connectionId) = Ok None ->
         trace_of (getDatasetData E req) =
         [EGetDataset (req_id req); EGetConnection (JNum connectionId);
          ERespond 404 (msg "Connection not found")]).
Proof.
  split.
  - intros Hds. route. rewrite Hds. reflexivity.
  - intros dataset connectionId Hds Hcid Hconn.
    route. rewrite Hds. cbn. rewrite Hcid. cbn. rewrite Hconn. reflexivity.
Qed.

(** X5. An exception of the storage, or of [parseCSV] on a csv
    connection, is answered 500 "Internal server error": the text of the
    exception is not sent, and the answer is not a 400. *)
Theorem unexpected_failures_are_500 (E : Env) (req : DataRequest) :
  (forall e, getDataset E (req_id req) = Err e ->
             responses (trace_of (getDatasetData E req))
             = [(500, msg "Internal server error")])
  /\ (forall dataset connectionId e,
         getDataset E (req_id req) = Ok (Some dataset) ->
         ds_connectionId dataset = Some connectionId ->
         getConnection E (JNum connectionId) = Err e ->
         responses (trace_of (getDatasetData E req))
         = [(500, msg "Internal server error")])
  /\ (forall dataset connectionId connection e,
         resolves E req dataset connectionId connection ->
         conn_type connection = "csv" ->
         truthy (csvPayload (conn_config connection)) = true ->
         parseCSV E (csvPayload (conn_config connection))
                  (csvOptions (conn_config connection)) = Err e ->
         responses (trace_of (getDatasetData E req))
         = [(500, msg "Internal server error")]).
Proof.
  split; [|split].
  - intros e Hds. route. rewrite Hds. reflexivity.
  - intros dataset connectionId e Hds Hcid Hconn.
    route. rewrite Hds. cbn. rewrite Hcid. cbn. rewrite Hconn. reflexivity.
  - intros dataset connectionId connection e H Htype Hp Hparse.
    pose proof (csvPayload_object _ Hp) as Hc.
    enter H. rewrite Htype. cbn. rewrite Hp, Hc. cbn [negb orb].
    unfold csvOptions in Hparse. cbn in Hparse. rewrite Hparse. reflexivity.
Qed.

(** *** The rest branch *)

Ltac enter_rest H :=
  let Hres := fresh "Hres" in
  let Htype := fresh "Htype" in
  let Hurl := fresh "Hurl" in
  let Hc := fresh "Hc" in
  destruct H as (Hres & Htype & Hurl);
  pose proof (truthy_field_object _ _ Hurl) as Hc;
  enter Hres; rewrite Htype; cbn; rewrite Hc, Hurl; cbn.

Lemma rest_request (E : Env) (req : DataRequest) (dataset : Dataset)
    (connectionId : Z) (connection : Connection) :
  requests_upstream E req dataset connectionId connection ->
  requests (trace_of (getDatasetData E req))
  = [(get (conn_config connection) "url",
      fetchOptions (conn_config connection))].
Proof.
  intros H. enter_rest H.
  destruct (fetch E _ _) as [response|e]; cbn; [|reflexivity].
  destruct (resp_ok response); cbn; [|reflexivity].
  destruct (resp_json response); cbn; [|reflexivity].
  destruct (extractRESTData E _ _); reflexivity.
Qed.

(** X6. On a rest connection, an exception of the request itself, of
    reading the body as JSON, or of the extraction of the rows is
    answered 400 "REST API request failed" with the text of that
    exception. *)
Theorem rest_exception_is_400 (E : Env) (req : DataRequest)
    (dataset : Dataset) (connectionId : Z) (connection : Connection) :
  requests_upstream E req dataset connectionId connection ->
  let config := conn_config connection in
  let tr := trace_of (getDatasetData E req) in
  (forall e, fetch E (get config "url") (fetchOptions config) = Err e ->
             responses tr = [(400, msg_err "REST API request failed" e)])
  /\ (forall response e,
         fetch E (get config "url") (fetchOptions config) = Ok response ->
         resp_ok response = true ->
         resp_json response = Err e ->
         responses tr = [(400, msg_err "REST API request failed" e)])
  /\ (forall response json e,
         fetch E (get config "url") (fetchOptions config) = Ok response ->
         resp_ok response = true ->
         resp_json response = Ok json ->
         extractRESTData E json (get config "resultPath") = Err e ->
         responses tr = [(400, msg_err "REST API request failed" e)]).
Proof.
  intros H config tr. subst tr. split; [|split].
  - intros e Hf. enter_rest H. fold config. rewrite Hf. reflexivity.
  - intros response e Hf Hok Hj. enter_rest H. fold config.
    rewrite Hf. cbn. rewrite Hok. cbn. rewrite Hj. reflexivity.
  - intros response json e Hf Hok Hj Hx. enter_rest H. fold config.
    rewrite Hf. cbn. rewrite Hok. cbn. rewrite Hj. cbn. rewrite Hx.
    reflexivity.
Qed.

(** X7. When the upstream answers ok and its body reads as JSON, the
    rows are what [extractRESTData] makes of that JSON under the
    config's resultPath, and they are answered 200. *)
Theorem rest_success_is_200 (E : Env) (req : DataRequest)
    (dataset : Dataset) (connectionId : Z) (connection : Connection)
    (response : HttpResponse) (json data : JsVal) :
  requests_upstream E req dataset connectionId connection ->
  let config := conn_config connection in
  fetch E (get config "url") (fetchOptions config) = Ok response ->
  resp_ok response = true ->
  resp_json response = Ok json ->
  extractRESTData E json (get config "resultPath") = Ok data ->
  trace_of (getDatasetData E req) =
  [EGetDataset (req_id req); EGetConnection (JNum connectionId);
   EFetch (get config "url") (fetchOptions config);
   EExtract json (get config "resultPath");
   ERespond 200 data].
Proof.
  intros H config Hf Hok Hj Hx. enter_rest H. fold config.
  rewrite Hf. cbn. rewrite Hok. cbn. rewrite Hj. cbn. rewrite Hx.
  reflexivity.
Qed.

(** X8. A rest connection without a url is answered 400 "REST
    connection URL is missing" and no request goes out, whatever else
    its config holds. *)
Theorem rest_without_url_is_400 (E : Env) (req : DataRequest)
    (dataset : Dataset) (connectionId : Z) (connection : Connection) :
  resolves E req dataset connectionId connection ->
  conn_type connection = "rest" ->
  truthy (get (conn_config connection) "url") = false ->
  trace_of (getDatasetData E req) =
  [EGetDataset (req_id req); EGetConnection (JNum connectionId);
   ERespond 400 (msg "REST connection URL is missing")].
Proof.
  intros H Htype Hurl. enter H. rewrite Htype. cbn.
  rewrite Hurl, orb_true_r. reflexivity.
Qed.

(** *** The headers and the body of the request *)

Lemma dec_not_word (i : Z) (c : ascii) (r : string) :
  (N_of_ascii c <? 45)%N || (57 <? N_of_ascii c)%N = true ->
  (String c r =? dec i)%string = false.
Proof.
  intros Hc. unfold dec.
  assert (Hu : forall d, (String c r =? NilZero.string_of_uint d)%string
                         = false).
  { intros d. destruct d; cbn; try reflexivity;
      destruct c as [[] [] [] [] [] [] [] []]; cbn in *;
      try reflexivity; discriminate Hc. }
  destruct (Z.to_int i) as [d|d]; cbn.
  - apply Hu.
  - destruct c as [[] [] [] [] [] [] [] []]; cbn in *;
      try reflexivity; discriminate Hc.
Qed.

Lemma lookup_indexed_word (c : ascii) (r : string) (l : list JsVal) :
  (N_of_ascii c <? 45)%N || (57 <? N_of_ascii c)%N = true ->
  forall i, lookup (String c r) (indexed i l) = JUndef.
Proof.
  intros Hc. induction l as [|x l IH]; intros i; cbn [lookup indexed];
    [reflexivity|].
  rewrite (dec_not_word i c r Hc). apply IH.
Qed.

(** A header named by a word is read off the spread of a value as off
    the value itself. *)
Lemma lookup_spread_word (c : ascii) (r : string) (v : JsVal) :
  (N_of_ascii c <? 45)%N || (57 <? N_of_ascii c)%N = true ->
  lookup (String c r) (spread v) = get v (String c r).
Proof.
  intros Hc. destruct v; try reflexivity; unfold spread, get.
  - apply lookup_indexed_word. exact Hc.
  - apply lookup_indexed_word. exact Hc.
Qed.

Lemma get_falsy (v : JsVal) (k : string) :
  truthy v = false -> get v k = JUndef.
Proof. destruct v; simpl; intros H; try discriminate; reflexivity. Qed.

Lemma authorization_of_fetchOptions (config : JsVal) :
  get (fo_headers (fetchOptions config)) "Authorization"
  = get (authHeaders config) "Authorization".
Proof.
  unfold fetchOptions.
  destruct (mutating _ && truthy _); cbn [fo_headers]; [|reflexivity].
  cbn [get]. rewrite lookup_obj_set_other by reflexivity.
  apply lookup_spread_word. reflexivity.
Qed.

(** *** The sql branch: what is answered *)

Ltac enter_pool H :=
  let Hres := fresh "Hres" in
  let Htype := fresh "Htype" in
  let Hc := fresh "Hc" in
  let Hcs := fresh "Hcs" in
  destruct H as (Hres & Htype & Hc & Hcs);
  enter_sql Hres; rewrite Htype; cbn; rewrite Hc; cbn;
  rewrite (resolveConnectionString_some _ _ _ _ Hcs).

(** X11. When [end()] succeeds, a sql data fetch answers 200 with the
    rows of the query, or 400 "SQL query execution failed" with the
    database's message when the query fails. *)
Theorem sql_fetch_answer (E : Env) (req : DataRequest)
    (dataset : Dataset) (connectionId : Z) (connection : Connection)
    (cs : JsVal) :
  opens_pool E req dataset connectionId connection cs ->
  poolEnd E cs = Ok tt ->
  responses (trace_of (getDatasetData E req)) =
  [match poolQuery E cs (selectQuery dataset (req_customQuery req)) [] with
   | Ok rows => (200, rows)
   | Err e => (400, msg_err "SQL query execution failed" e)
   end].
Proof.
  intros H Hend. enter_pool H.
  destruct (truthy (get (conn_config connection) "connectionString")); cbn;
    rewrite Hend; destruct (poolQuery E _ _ _); reflexivity.
Qed.

(** X12. When [end()] itself fails, its message is what the data route
    answers, as a 400: the rows of a query that succeeded are dropped,
    and the message of a query that failed is replaced. *)
Theorem end_failure_masks_the_query (E : Env) (req : DataRequest)
    (dataset : Dataset) (connectionId : Z) (connection : Connection)
    (cs : JsVal) (e : JsError) :
  opens_pool E req dataset connectionId connection cs ->
  poolEnd E cs = Err e ->
  responses (trace_of (getDatasetData E req)) =
  [(400, msg_err "SQL query execution failed" e)]
  /\ closes (trace_of (getDatasetData E req)) = 1%nat.
Proof.
  intros H Hend. enter_pool H.
  destruct (truthy (get (conn_config connection) "connectionString")); cbn;
    rewrite Hend; destruct (poolQuery E _ _ _); split; reflexivity.
Qed.

(** X13. With no customQuery, no stored query and no table in the
    dataset's config, the statement run is SELECT * FROM users LIMIT
    100. *)
Theorem default_is_users_table (E : Env) (req : DataRequest)
    (dataset : Dataset) (connectionId : Z) (connection : Connection)
    (cs : JsVal) :
  opens_pool E req dataset connectionId connection cs ->
  truthy (req_customQuery req) && typeof_string (req_customQuery req)
  = false ->
  query_present (ds_query dataset) = false ->
  truthy (get (ds_config dataset) "table") = false ->
  executed (trace_of (getDatasetData E req))
  = [JStr "SELECT * FROM users LIMIT 100"].
Proof.
  intros (Hres & Htype & Hc & Hcs) Hcq Hq Ht.
  destruct (sql_fetch_trace _ _ _ _ _ _ Hres Htype Hc Hcs)
    as (st & body & Htr).
  rewrite Htr. unfold selectQuery. rewrite Hcq, Hq, Ht.
  destruct (truthy (get (conn_config connection) "connectionString"));
    destruct (truthy (ds_config dataset) && typeof_object (ds_config dataset));
    reflexivity.
Qed.

(** Case analysis on what the outside answers. *)
Ltac outside E :=
  repeat (cbn;
          match goal with
          | |- context [parseCSV E ?a ?b] => destruct (parseCSV E a b)
          | |- context [fetch E ?a ?b] => destruct (fetch E a b)
          | |- context [resp_ok ?r] => destruct (resp_ok r)
          | |- context [resp_json ?r] => destruct (resp_json r)
          | |- context [extractRESTData E ?a ?b] =>
              destruct (extractRESTData E a b)
          | |- context [buildPgConnectionString E ?a] =>
              destruct (buildPgConnectionString E a)
          | |- context [poolQuery E ?a ?b ?c] => destruct (poolQuery E a b c)
          | |- context [poolEnd E ?a] => destruct (poolEnd E a)
          | |- context [truthy ?v] => destruct (truthy v)
          | |- context [(?a =? ?b)%string] => destruct (a =? b)%string
          end);
  cbn; auto.

(** X14. The dispatch on the connection type is exclusive: a csv
    connection never creates a pool, sends a request or synthesizes a
    connection string; a rest connection never creates a pool or
    parses; a sql connection never sends a request or parses. *)
Theorem dispatch_is_exclusive (E : Env) (req : DataRequest)
    (dataset : Dataset) (connectionId : Z) (connection : Connection) :
  resolves E req dataset connectionId connection ->
  let tr := trace_of (getDatasetData E req) in
  (conn_type connection = "csv" ->
   pool_events tr = [] /\ requests tr = [] /\ synth_calls tr = [])
  /\ (conn_type connection = "rest" ->
      pool_events tr = [] /\ parse_calls tr = [] /\ synth_calls tr = [])
  /\ (conn_type connection = "sql" ->
      requests tr = [] /\ parse_calls tr = []).
Proof.
  intros H tr. subst tr. split; [|split]; intros Htype.
  - enter H. rewrite Htype. outside E.
  - enter H. rewrite Htype. outside E.
  - enter H. rewrite Htype. outside E.
Qed.

(** ** The auxiliary SQL routes *)

Lemma map_table_name_defined (rows : list JsVal) :
  forallb defined rows = true ->
  map_table_name rows = Ok (map (fun row => get row "table_name") rows).
Proof.
  induction rows as [|row rows IH]; simpl; intros H; [reflexivity|].
  apply andb_prop in H. destruct H as [Hrow Hrows].
  rewrite (IH Hrows). destruct row; try discriminate Hrow; reflexivity.
Qed.

(** X15. When the database answers the tables query with an array of
    rows, the tables route answers 200 with the table_name of each row,
    in order. *)
Theorem tables_route_lists_names (E : Env) (id : Z)
    (connection : Connection) (cs : JsVal) (rows : list JsVal) :
  getConnection E (JNum id) = Ok (Some connection) ->
  conn_type connection = "sql" ->
  truthy (conn_config connection) = true ->
  resolved E (conn_config connection) = Some cs ->
  poolQuery E cs (JStr tablesQuery) [] = Ok (JArr rows) ->
  forallb defined rows = true ->
  poolEnd E cs = Ok tt ->
  responses (trace_of (getConnectionTables E id))
  = [(200, JArr (map (fun row => get row "table_name") rows))].
Proof.
  intros Hconn Htype Hc Hcs Hq Hrows Hend.
  unfold trace_of, getConnectionTables, storage_getConnection, newPool,
    tempPool_query, tempPool_end, reply, respond, try_catch, try_finally,
    bind, emit, lift, ret, throw, exit.
  cbn beta iota. rewrite Hconn. cbn. rewrite Htype. cbn. rewrite Hc. cbn.
  rewrite (resolveConnectionString_some _ _ _ _ Hcs).
  destruct (truthy (get (conn_config connection) "connectionString")); cbn;
    rewrite Hq; cbn; unfold rows_table_names;
    rewrite (map_table_name_defined _ Hrows); cbn; rewrite Hend;
    reflexivity.
Qed.

(** X16. The execute-query and table-schema routes check the request
    body before anything else: a body without a connectionId, without a
    non-empty query string, or without a non-empty table name is
    answered 400 and the storage is not consulted. *)
Theorem body_is_validated_first (E : Env) (body : JsVal) :
  defined body = true ->
  (truthy (get body "connectionId") = false ->
   trace_of (postExecuteQuery E body)
   = [ERespond 400 (msg "Connection ID is required")]
   /\ trace_of (postTableSchema E body)
      = [ERespond 400 (msg "Connection ID is required")])
  /\ (truthy (get body "connectionId") = true ->
      truthy (get body "query") && typeof_string (get body "query") = false ->
      trace_of (postExecuteQuery E body)
      = [ERespond 400 (msg "Valid SQL query is required")])
  /\ (truthy (get body "connectionId") = true ->
      truthy (get body "table") && typeof_string (get body "table") = false ->
      trace_of (postTableSchema E body)
      = [ERespond 400 (msg "Table name is required")]).
Proof.
  intros Hbody. split; [|split].
  - intros Hid. split; unfold trace_of, postExecuteQuery, postTableSchema,
      destructure, reply, respond, try_catch, bind, emit, ret, throw, exit;
      destruct body; try discriminate Hbody; cbn; cbn in Hid;
      try rewrite Hid; reflexivity.
  - intros Hid Hq.
    unfold trace_of, postExecuteQuery, destructure, reply, respond,
      try_catch, bind, emit, ret, throw, exit.
    destruct body; try discriminate Hid. cbn. cbn in Hid, Hq. rewrite Hid.
    cbn. rewrite <- negb_andb, Hq. reflexivity.
  - intros Hid Hq.
    unfold trace_of, postTableSchema, destructure, reply, respond,
      try_catch, bind, emit, ret, throw, exit.
    destruct body; try discriminate Hid. cbn. cbn in Hid, Hq. rewrite Hid.
    cbn. rewrite <- negb_andb, Hq. reflexivity.
Qed.

(** X17. The three routes that are for SQL connections only answer a
    connection of another type with 400 "Connection must be of type
    'sql'" right after the lookup, whatever its config holds: no
    connection string is resolved and no pool is created. *)
Theorem sql_only_routes_reject_other_types (E : Env)
    (connection : Connection) :
  conn_type connection <> "sql" ->
  (forall body,
      truthy (get body "connectionId") = true ->
      truthy (get body "query") && typeof_string (get body "query") = true ->
      getConnection E (get body "connectionId") = Ok (Some connection) ->
      trace_of (postExecuteQuery E body)
      = [EGetConnection (get body "connectionId");
         ERespond 400 (msg "Connection must be of type 'sql'")])
  /\ (forall body,
         truthy (get body "connectionId") = true ->
         truthy (get body "table") && typeof_string (get body "table")
         = true ->
         getConnection E (get body "connectionId") = Ok (Some connection) ->
         trace_of (postTableSchema E body)
         = [EGetConnection (get body "connectionId");
            ERespond 400 (msg "Connection must be of type 'sql'")])
  /\ (forall id,
         getConnection E (JNum id) = Ok (Some connection) ->
         trace_of (getConnectionTables E id)
         = [EGetConnection (JNum id);
            ERespond 400 (msg "Connection must be of type 'sql'")]).
Proof.
  intros Htype. apply String.eqb_neq in Htype. split; [|split].
  - intros body Hid Hq Hconn. apply andb_prop in Hq. destruct Hq as [Hq1 Hq2].
    unfold trace_of, postExecuteQuery, destructure, storage_getConnection,
      reply, respond, try_catch, bind, emit, lift, ret, throw, exit.
    destruct body; try discriminate Hid. cbn. cbn in Hid, Hq1, Hq2, Hconn.
    rewrite Hid, Hq1, Hq2. cbn. rewrite Hconn. cbn. rewrite Htype.
    reflexivity.
  - intros body Hid Hq Hconn. apply andb_prop in Hq. destruct Hq as [Hq1 Hq2].
    unfold trace_of, postTableSchema, destructure, storage_getConnection,
      reply, respond, try_catch, bind, emit, lift, ret, throw, exit.
    destruct body; try discriminate Hid. cbn. cbn in Hid, Hq1, Hq2, Hconn.
    rewrite Hid, Hq1, Hq2. cbn. rewrite Hconn. cbn. rewrite Htype.
    reflexivity.
  - intros id Hconn.
    unfold trace_of, getConnectionTables, storage_getConnection,
      reply, respond, try_catch, bind, emit, lift, ret, throw, exit.
    cbn. rewrite Hconn. cbn. rewrite Htype. reflexivity.
Qed.

(** X18. On the execute route of a dataset that has no stored query,
    the request's query is run as it is, without a WITH clause. *)
Theorem execute_route_without_stored_query (E : Env) (dataset : Dataset)
    (query connectionString : JsVal) :
  query_present (ds_query dataset) = false ->
  executed (trace_of (executeDatasetQuery E dataset query connectionString))
  = [query].
Proof.
  intros Hq. route. unfold cteQuery. rewrite Hq. cbn.
  destruct (poolQuery E _ _ _), (poolEnd E _); reflexivity.
Qed.

(** ** The registry of WebSocket clients *)

Section Registry.

Import Ws.

Lemma has_In (c : Socket) (l : list Socket) : has c l = true <-> In c l.
Proof.
  unfold has. rewrite existsb_exists. split.
  - intros (x & Hx & He). apply Nat.eqb_eq in He. subst x. exact Hx.
  - intros H. exists c. split; [exact H | apply Nat.eqb_refl].
Qed.

Lemma In_delete (c x : Socket) (l : list Socket) :
  In x (delete c l) <-> In x l /\ x <> c.
Proof.
  unfold delete. rewrite filter_In, negb_true_iff, Nat.eqb_neq. tauto.
Qed.

Lemma NoDup_delete (c : Socket) (l : list Socket) :
  NoDup l -> NoDup (delete c l).
Proof. apply NoDup_filter. Qed.

Lemma NoDup_add (c : Socket) (l : list Socket) : NoDup l -> NoDup (add c l).
Proof.
  intros H. unfold add. destruct (has c l) eqn:Hc; [exact H|].
  apply NoDup_app; [exact H | constructor; [intros [] | constructor] |].
  intros x Hx [<- | []]. apply has_In in Hx. congruence.
Qed.

Lemma In_add (c x : Socket) (l : list Socket) :
  In x (add c l) <-> In x l \/ x = c.
Proof.
  unfold add. destruct (has c l) eqn:Hc.
  - apply has_In in Hc. split; [tauto | intros [H | ->]; assumption].
  - rewrite in_app_iff. simpl. intuition.
Qed.

Lemma filter_filter (f g : Socket -> bool) (l : list Socket) :
  filter f (filter g l) = filter (fun x => g x && f x) l.
Proof.
  induction l as [|x l IH]; simpl; [reflexivity|].
  destruct (g x); simpl; [destruct (f x)|]; rewrite IH; reflexivity.
Qed.

Lemma fold_delete (dead l : list Socket) :
  fold_left (fun active client => delete client active) dead l
  = filter (fun x => negb (has x dead)) l.
Proof.
  revert l; induction dead as [|c dead IH]; intros l; simpl.
  - induction l as [|x l IHl]; simpl; [reflexivity | rewrite <- IHl at 1].
    reflexivity.
  - rewrite IH. unfold delete. rewrite filter_filter.
    apply filter_ext. intros x. rewrite negb_orb. reflexivity.
Qed.

Lemma visit_sends (W : Sockets) (payload : Payload) (l : list Socket) :
  fst (visit W payload l)
  = map (fun c => (c, payload)) (filter (is_open W) l).
Proof.
  induction l as [|c l IH]; simpl; [reflexivity|].
  destruct (visit W payload l) as [sends dead]. simpl in IH.
  unfold is_open.
  destruct (readyState W c); simpl; try exact IH.
  destruct (sendThrows W c payload); simpl; rewrite IH; reflexivity.
Qed.

Lemma visit_dead (W : Sockets) (payload : Payload) (l : list Socket) :
  snd (visit W payload l) = filter (dropped W payload) l.
Proof.
  induction l as [|c l IH]; simpl; [reflexivity|].
  destruct (visit W payload l) as [sends dead]. simpl in IH.
  unfold dropped.
  destruct (readyState W c); simpl; try (rewrite IH; reflexivity);
    try exact IH.
  destruct (sendThrows W c payload); simpl; rewrite IH; reflexivity.
Qed.

Lemma broadcast_sends (W : Sockets) (message : JsVal) (R : Registry) :
  snd (broadcastWebSocketMessage W message R)
  = map (fun c => (c, messageString message))
        (filter (is_open W) (activeClients R)).
Proof.
  unfold broadcastWebSocketMessage.
  rewrite <- visit_sends.
  destruct (visit W (messageString message) (activeClients R)); reflexivity.
Qed.

Lemma broadcast_active (W : Sockets) (message : JsVal) (R : Registry) :
  activeClients (fst (broadcastWebSocketMessage W message R))
  = filter (fun c => negb (dropped W (messageString message) c))
           (activeClients R).
Proof.
  unfold broadcastWebSocketMessage.
  pose proof (visit_dead W (messageString message) (activeClients R)) as Hd.
  destruct (visit W (messageString message) (activeClients R))
    as [sends dead].
  simpl in *. subst dead. rewrite fold_delete.
  apply filter_ext_in. intros x Hx. f_equal.
  destruct (dropped W (messageString message) x) eqn:Hdrop.
  - apply has_In. apply filter_In. auto.
  - destruct (has x _) eqn:Hh; [|reflexivity].
    apply has_In, filter_In in Hh. destruct Hh as [_ Hh]. congruence.
Qed.

(** X19. A broadcast calls [send] once for each registered client that
    is open, in the order the clients were registered, with the same
    text for all: the message itself when it is a string, its JSON text
    otherwise.  Connecting, closing and closed clients are not sent
    to. *)
Theorem broadcast_reaches_open_clients (W : Sockets) (message : JsVal)
    (R : Registry) :
  snd (broadcastWebSocketMessage W message R)
  = map (fun c => (c, messageString message))
        (filter (is_open W) (activeClients R))
  /\ (forall s, message = JStr s -> messageString message = Text s)
  /\ (typeof_string message = false ->
      messageString message = JsonOf message).
Proof.
  split; [apply broadcast_sends|]. split.
  - intros s ->. reflexivity.
  - destruct message; simpl; intros H; try discriminate; reflexivity.
Qed.

(** X20. A broadcast prunes the registry: afterwards it holds, in their
    old order, exactly the clients that were connecting, or open with a
    [send] that did not throw.  Closed and closing clients and clients
    whose [send] threw are gone, and nobody is added. *)
Theorem broadcast_prunes_dead_clients (W : Sockets) (message : JsVal)
    (R : Registry) :
  let after := activeClients (fst (broadcastWebSocketMessage W message R)) in
  after = filter (fun c => negb (dropped W (messageString message) c))
                 (activeClients R)
  /\ (forall c, In c after ->
        In c (activeClients R)
        /\ readyState W c <> CLOSED /\ readyState W c <> CLOSING)
  /\ (forall c, In c (activeClients R) -> readyState W c = CONNECTING ->
        In c after).
Proof.
  intros after. subst after. rewrite broadcast_active. split; [reflexivity|].
  split.
  - intros c Hc. apply filter_In in Hc. destruct Hc as [Hin Hd].
    split; [exact Hin|]. unfold dropped in Hd.
    destruct (readyState W c); simpl in Hd; split; congruence.
  - intros c Hin Hs. apply filter_In. split; [exact Hin|].
    unfold dropped. rewrite Hs. reflexivity.
Qed.

(** X21. Broadcasting the same message again, with the sockets as they
    were, removes nobody else and reaches the clients that are left and
    open. *)
Theorem broadcast_again_removes_nobody (W : Sockets) (message : JsVal)
    (R : Registry) :
  let R1 := fst (broadcastWebSocketMessage W message R) in
  activeClients (fst (broadcastWebSocketMessage W message R1))
  = activeClients R1
  /\ Forall (fun send => sendThrows W (fst send) (snd send) = false)
            (snd (broadcastWebSocketMessage W message R1)).
Proof.
  intros R1. subst R1. split.
  - rewrite !broadcast_active. rewrite filter_filter.
    apply filter_ext. intros x. apply andb_diag.
  - rewrite broadcast_sends, broadcast_active.
    apply Forall_forall. intros [c payload] Hin.
    apply in_map_iff in Hin. destruct Hin as (x & [= <- <-] & Hx).
    apply filter_In in Hx. destruct Hx as [Hx Hopen].
    apply filter_In in Hx. destruct Hx as [_ Hdrop].
    unfold is_open in Hopen. unfold dropped in Hdrop. simpl.
    destruct (readyState W x); try discriminate.
    apply negb_true_iff in Hdrop. exact Hdrop.
Qed.

Lemma reachable_inv (R : Registry) :
  reachable R ->
  NoDup (activeClients R)
  /\ forall c, In c (activeClients R) -> In c (closeListeners R).
Proof.
  induction 1 as [|W client R _ [IHn IHl]|W client R _ [IHn IHl]
                  |W message R _ [IHn IHl]|c R _ [IHn IHl]].
  - split; [constructor | intros c []].
  - unfold registerWebSocketClient. destruct client as [c|]; [|auto].
    destruct (readyState W c); auto; simpl;
      (split; [apply NoDup_add; exact IHn|]);
      intros x Hx; apply In_add in Hx; apply in_app_iff;
      destruct Hx as [Hx | ->]; simpl; auto.
  - unfold unregisterWebSocketClient. destruct client as [c|]; [|auto].
    simpl. split; [apply NoDup_delete; exact IHn|].
    intros x Hx. apply In_delete in Hx. apply IHl. tauto.
  - rewrite broadcast_active. unfold broadcastWebSocketMessage.
    destruct (visit W _ _). simpl.
    split; [apply NoDup_filter; exact IHn|].
    intros x Hx. apply filter_In in Hx. apply IHl. tauto.
  - unfold closeEvent. destruct (has c (closeListeners R)); [|auto].
    simpl. split; [apply NoDup_delete; exact IHn|].
    intros x Hx. apply In_delete in Hx. apply IHl. tauto.
Qed.

(** X22. Registering a client that is not closed puts it in the
    registry once, marks it alive and leaves the other members and
    their order alone; registering a member again does not duplicate
    it.  A missing or closed client is not registered. *)
Theorem register_adds_once (W : Sockets) (c : Socket) (R : Registry) :
  reachable R ->
  let R' := registerWebSocketClient W (Some c) R in
  (readyState W c <> CLOSED ->
   In c (activeClients R') /\ NoDup (activeClients R')
   /\ isAlive R' c = true
   /\ (In c (activeClients R) -> activeClients R' = activeClients R)
   /\ (~ In c (activeClients R) ->
       activeClients R' = (activeClients R ++ [c])%list))
  /\ (readyState W c = CLOSED -> R' = R)
  /\ registerWebSocketClient W None R = R.
Proof.
  intros Hr R'. subst R'. destruct (reachable_inv _ Hr) as [Hn _].
  unfold registerWebSocketClient. split; [|split; [|reflexivity]].
  - intros Hs.
    assert (Hgoal :
      let R' := {| activeClients := add c (activeClients R);
                   isAlive := fun x => if Nat.eqb x c then true
                                       else isAlive R x;
                   closeListeners := (closeListeners R ++ [c])%list |} in
      In c (activeClients R') /\ NoDup (activeClients R')
      /\ isAlive R' c = true
      /\ (In c (activeClients R) -> activeClients R' = activeClients R)
      /\ (~ In c (activeClients R) ->
          activeClients R' = (activeClients R ++ [c])%list)).
    { simpl. split; [apply In_add; auto|].
      split; [apply NoDup_add; exact Hn|].
      split; [rewrite Nat.eqb_refl; reflexivity|].
      unfold add. split; intros Hin.
      - apply has_In in Hin. rewrite Hin. reflexivity.
      - destruct (has c (activeClients R)) eqn:Hh; [|reflexivity].
        apply has_In in Hh. contradiction. }
    destruct (readyState W c); try exact Hgoal. congruence.
  - intros ->. reflexivity.
Qed.

(** X23. Unregistering a client takes it out of the registry and leaves
    the other members in their order; [close()] is called on the socket
    exactly when it is neither closed nor closing, whether or not it
    was registered. *)
Theorem unregister_removes_and_closes (W : Sockets) (c : Socket)
    (R : Registry) :
  let result := unregisterWebSocketClient W (Some c) R in
  ~ In c (activeClients (fst result))
  /\ activeClients (fst result)
     = filter (fun x => negb (Nat.eqb x c)) (activeClients R)
  /\ (snd result = [c] <->
      readyState W c <> CLOSED /\ readyState W c <> CLOSING)
  /\ (snd result = [] <->
      readyState W c = CLOSED \/ readyState W c = CLOSING).
Proof.
  simpl. split; [|split; [reflexivity|]].
  - intros H. apply In_delete in H. destruct H as [_ H]. congruence.
  - destruct (readyState W c); split; split;
      try (intros; discriminate); try reflexivity;
      try (intros [H1 H2]; congruence); try (intros [H|H]; congruence);
      try (intros _; split; discriminate); auto.
Qed.

(** X24. Registering a client that was not a member and unregistering
    it again gives the registry its old members back. *)
Theorem register_unregister_round_trip (W W' : Sockets) (c : Socket)
    (R : Registry) :
  ~ In c (activeClients R) ->
  activeClients
    (fst (unregisterWebSocketClient W' (Some c)
            (registerWebSocketClient W (Some c) R)))
  = activeClients R.
Proof.
  intros Hin.
  assert (Hdel : delete c (activeClients R) = activeClients R).
  { unfold delete. induction (activeClients R) as [|x l IH]; simpl;
      [reflexivity|].
    destruct (Nat.eqb_spec x c) as [->|Hne]; simpl.
    - exfalso. apply Hin. left. reflexivity.
    - rewrite IH; [reflexivity|]. intros H. apply Hin. right. exact H. }
  unfold registerWebSocketClient, unregisterWebSocketClient.
  destruct (readyState W c); simpl; try exact Hdel;
    unfold add; (destruct (has c (activeClients R)) eqn:Hh;
                 [apply has_In in Hh; contradiction|]);
    unfold delete; rewrite filter_app; simpl; rewrite Nat.eqb_refl; simpl;
    rewrite app_nil_r; exact Hdel.
Qed.

(** X25. In every registry the module can reach, the members are
    distinct and each has a close listener, so the close event of a
    member takes it out of the registry and leaves the others. *)
Theorem close_event_removes_member (R : Registry) (c : Socket) :
  reachable R ->
  In c (activeClients R) ->
  NoDup (activeClients R)
  /\ ~ In c (activeClients (closeEvent c R))
  /\ (forall x, x <> c ->
        (In x (activeClients (closeEvent c R)) <-> In x (activeClients R))).
Proof.
  intros Hr Hin. destruct (reachable_inv _ Hr) as [Hn Hl].
  split; [exact Hn|].
  unfold closeEvent.
  assert (Hh : has c (closeListeners R) = true)
    by (apply has_In, Hl, Hin).
  rewrite Hh. simpl. split.
  - intros H. apply In_delete in H. destruct H as [_ H]. congruence.
  - intros x Hx. rewrite In_delete. tauto.
Qed.

End Registry.

(** ** The request's headers *)

Lemma spread_falsy (v : JsVal) : truthy v = false -> spread v = [].
Proof.
  destruct v; simpl; intros H; try discriminate; try reflexivity.
  destruct s; [reflexivity | discriminate].
Qed.

Lemma spread_configured (headers : JsVal) :
  spread (if truthy headers then headers else JUndef) = spread headers.
Proof.
  destruct (truthy headers) eqn:Ht; [reflexivity|].
  rewrite (spread_falsy _ Ht). reflexivity.
Qed.

Lemma same_name_refl (name : string) : Http.same_name name name = true.
Proof. apply String.eqb_refl. Qed.

Lemma keys_obj_set (fs : list (string * JsVal)) (k : string) (v : JsVal) :
  forall x, In x (map fst (obj_set fs k v)) <->
            In x (map fst fs) \/ x = k.
Proof.
  induction fs as [|[k' v'] fs IH]; intros x; simpl.
  - intuition.
  - destruct (String.eqb_spec k k') as [->|Hne]; simpl.
    + intuition.
    + rewrite IH. intuition.
Qed.

Lemma NoDup_obj_set (fs : list (string * JsVal)) (k : string) (v : JsVal) :
  NoDup (map fst fs) -> NoDup (map fst (obj_set fs k v)).
Proof.
  induction fs as [|[k' v'] fs IH]; simpl; intros H.
  - constructor; [intros [] | constructor].
  - inversion H as [|? ? Hnot Hrest]; subst.
    destruct (String.eqb_spec k k') as [->|Hne]; simpl.
    + constructor; assumption.
    + constructor; [|apply IH; exact Hrest].
      intros Hin. apply keys_obj_set in Hin. destruct Hin as [Hin | ->];
        [exact (Hnot Hin) | exact (Hne eq_refl)].
Qed.

Lemma values_of_obj_set_other (fs : list (string * JsVal))
    (k name : string) (v : JsVal) :
  Http.same_name k name = false ->
  Http.values_of name (Http.header_list (JObj (obj_set fs k v)))
  = Http.values_of name (Http.header_list (JObj fs)).
Proof.
  intros Hk. induction fs as [|[k' v'] fs IH]; simpl.
  - rewrite Hk. reflexivity.
  - destruct (String.eqb_spec k k') as [->|Hne]; simpl.
    + rewrite Hk. reflexivity.
    + simpl in IH. rewrite IH. reflexivity.
Qed.

Lemma values_of_absent (fs : list (string * JsVal)) (name : string) :
  (forall k, In k (map fst fs) -> Http.same_name k name = false) ->
  Http.values_of name (Http.header_list (JObj fs)) = [].
Proof.
  induction fs as [|[k v] fs IH]; simpl; intros H; [reflexivity|].
  rewrite (H k (or_introl eq_refl)). apply IH.
  intros k' Hk'. apply H. right. exact Hk'.
Qed.

Lemma values_of_obj_set_once (fs : list (string * JsVal)) (name : string)
    (v : JsVal) :
  NoDup (map fst fs) ->
  (forall k, In k (map fst fs) -> Http.same_name k name = true -> k = name) ->
  Http.values_of name (Http.header_list (JObj (obj_set fs name v)))
  = [Http.normalize (toStr v)].
Proof.
  induction fs as [|[k v'] fs IH]; simpl; intros Hnd Hsp.
  - rewrite same_name_refl. reflexivity.
  - inversion Hnd as [|? ? Hnot Hrest]; subst.
    destruct (String.eqb_spec name k) as [<-|Hne]; simpl.
    + rewrite same_name_refl. f_equal.
      apply (values_of_absent fs name). intros k Hk.
      destruct (Http.same_name k name) eqn:Hs; [|reflexivity].
      exfalso. apply Hnot. rewrite <- (Hsp k (or_intror Hk) Hs). exact Hk.
    + destruct (Http.same_name k name) eqn:Hs.
      * exfalso. apply Hne. symmetry. apply Hsp; [left; reflexivity | exact Hs].
      * simpl in IH. apply IH; [exact Hrest|].
        intros k' Hk'. apply Hsp. right. exact Hk'.
Qed.

Lemma spelled_once_obj_set (name k : string) (headers v : JsVal) :
  spelled_once name headers ->
  Http.same_name k name = false ->
  spelled_once name (JObj (obj_set (spread headers) k v)).
Proof.
  intros [Hnd Hsp] Hk. split; simpl.
  - apply NoDup_obj_set. exact Hnd.
  - intros x Hx Hs. apply keys_obj_set in Hx. destruct Hx as [Hx | ->].
    + exact (Hsp x Hx Hs).
    + congruence.
Qed.

Lemma get_clean (s : string) :
  no_whitespace s = true ->
  forall k c, String.get k s = Some c -> Http.whitespace c = false.
Proof.
  induction s as [|c' s IH]; simpl; intros H k c Hget; [discriminate|].
  apply andb_prop in H. destruct H as [Hc Hs].
  destruct k as [|k].
  - injection Hget as <-. apply negb_true_iff. exact Hc.
  - exact (IH Hs k c Hget).
Qed.

Lemma sextet_clean (n : N) : Http.whitespace (sextet n) = false.
Proof.
  unfold sextet.
  destruct (String.get (N.to_nat n) alphabet) as [c|] eqn:Hget;
    [|reflexivity].
  exact (get_clean alphabet eq_refl _ _ Hget).
Qed.

Lemma base64_bytes_clean (l : list N) : no_whitespace (base64_bytes l) = true.
Proof.
  assert (H : forall n l, (length l <= n)%nat ->
                          no_whitespace (base64_bytes l) = true).
  { clear l. induction n as [|n IH]; intros l Hlen.
    - destruct l; [reflexivity | simpl in Hlen; lia].
    - destruct l as [|a [|b [|c r]]]; cbn [base64_bytes no_whitespace];
        rewrite ?sextet_clean; try reflexivity.
      cbn [negb andb]. apply IH. simpl in Hlen. lia. }
  exact (H (length l) l (Nat.le_refl _)).
Qed.

Lemma base64_bytes_nonempty (l : list N) :
  l <> [] -> base64_bytes l <> "".
Proof.
  destruct l as [|a [|b [|c r]]]; simpl; intros H; try discriminate.
  congruence.
Qed.

Lemma strip_trailing_clean (b : string) :
  no_whitespace b = true -> Http.strip_trailing b = b.
Proof.
  induction b as [|c b IH]; simpl; intros H; [reflexivity|].
  apply andb_prop in H. destruct H as [Hc Hb].
  apply negb_true_iff in Hc. rewrite Hc, andb_false_r, (IH Hb). reflexivity.
Qed.

Lemma strip_trailing_app (a b : string) :
  b <> "" -> no_whitespace b = true ->
  Http.strip_trailing (a ++ b) = a ++ b.
Proof.
  intros Hne Hb. induction a as [|c a IH]; simpl.
  - apply strip_trailing_clean. exact Hb.
  - rewrite IH.
    assert (Hab : (a ++ b =? "")%string = false).
    { apply String.eqb_neq. destruct a; simpl; [exact Hne | discriminate]. }
    rewrite Hab. reflexivity.
Qed.

(** The credentials of basic auth survive the normalization of header
    values as they are. *)
Lemma normalize_basic (u p : string) :
  Http.normalize ("Basic " ++ base64 (u ++ ":" ++ p))
  = "Basic " ++ base64 (u ++ ":" ++ p).
Proof.
  unfold Http.normalize.
  assert (Hne : base64 (u ++ ":" ++ p) <> "").
  { unfold base64. apply base64_bytes_nonempty.
    induction u; simpl; discriminate. }
  assert (Hc : no_whitespace (base64 (u ++ ":" ++ p)) = true)
    by apply base64_bytes_clean.
  set (x := base64 (u ++ ":" ++ p)) in *.
  assert (Hl : Http.strip_leading ("Basic " ++ x) = "Basic " ++ x)
    by reflexivity.
  rewrite Hl. exact (strip_trailing_app "Basic " x Hne Hc).
Qed.



(** X10. The method is GET unless the config names one.  A body is sent
    only with a method that is exactly POST, PUT or PATCH and a truthy
    config.body; it is then config.body, sent as JSON, and the headers
    object handed to [fetch] has the property Content-Type equal to
    application/json, in the place of a configured property of that
    very spelling.  When the configured headers spell Content-Type in
    no other case, application/json is the request's Content-Type. *)
Theorem request_method_and_body (E : Env) (req : DataRequest)
    (dataset : Dataset) (connectionId : Z) (connection : Connection) :
  requests_upstream E req dataset connectionId connection ->
  let config := conn_config connection in
  let opts := fetchOptions config in
  requests (trace_of (getDatasetData E req)) = [(get config "url", opts)]
  /\ (truthy (get config "method") = false ->
      fo_method opts = JStr "GET" /\ fo_body opts = None)
  /\ (truthy (get config "method") = true ->
      fo_method opts = get config "method")
  /\ (forall body, fo_body opts = Some body ->
      mutating (get config "method") = true
      /\ body = get config "body" /\ truthy body = true
      /\ get (fo_headers opts) "Content-Type" = JStr "application/json"
      /\ (spelled_once "Content-Type" (get config "headers") ->
          Http.header (fo_headers opts) "Content-Type"
          = Some "application/json")).
Proof.
  intros H config opts. subst opts.
  split; [exact (rest_request _ _ _ _ _ H)|].
  unfold fetchOptions, js_or. split; [|split].
  - intros Hm. rewrite Hm. cbn. split; reflexivity.
  - intros Hm. rewrite Hm.
    destruct (mutating _ && truthy _); reflexivity.
  - intros body.
    destruct (truthy (get config "method")) eqn:Hm.
    + destruct (mutating (get config "method")
                && truthy (get config "body")) eqn:Hb;
        cbn; intros [= <-].
      apply andb_prop in Hb. destruct Hb as [Hmut Hbody].
      repeat split; try assumption; [apply lookup_obj_set_same|].
      intros Hsp.
      assert (Hauth : spelled_once "Content-Type" (authHeaders config)).
      { unfold authHeaders.
        pose proof (spread_configured (get config "headers")) as Hh.
        assert (H0 : spelled_once "Content-Type"
                       (if truthy (get config "headers")
                        then get config "headers" else JUndef)).
        { unfold spelled_once. rewrite Hh. exact Hsp. }
        destruct (truthy (get config "auth")); [|exact H0].
        destruct (is_str _ "basic");
          [apply spelled_once_obj_set; [exact H0 | reflexivity]|].
        destruct (is_str _ "bearer" && truthy _);
          [apply spelled_once_obj_set; [exact H0 | reflexivity]|].
        exact H0. }
      destruct Hauth as [Hnd Hk]. unfold Http.header.
      rewrite (values_of_obj_set_once _ _ _ Hnd Hk). reflexivity.
    + cbn. discriminate.
Qed.

(** ** The added theorems at concrete requests *)
Module MoreExamples.

Import Fake Samples.

Lemma around_resolves connection rows closing http parsed extracted cq :
  resolves (around connection rows closing http parsed extracted)
           (req5 cq) dataset5 1 connection.
Proof. repeat split. Defined.

Lemma around_opens_pool rows closing cq :
  opens_pool (around (sqlConn withString) rows closing noHttp quiet quiet)
             (req5 cq) dataset5 1 (sqlConn withString) dbUrl.
Proof. repeat split. Defined.

Lemma around_requests_upstream config http extracted :
  truthy (get config "url") = true ->
  requests_upstream (around (conn "rest" config) quiet (Ok tt) http quiet
                            extracted)
                    (req5 JUndef) dataset5 1 (conn "rest" config).
Proof. intros H. repeat split. exact H. Defined.

Lemma sql_routes_answer_once_witness :
  length (responses
            (trace_of (postExecuteQuery
                         (around (sqlConn withString) (Err "syntax error")
                                 (Ok tt) noHttp quiet quiet)
                         queryBody))) = 1%nat.
Proof.
  destruct (sql_routes_answer_once
              (around (sqlConn withString) (Err "syntax error") (Ok tt)
                      noHttp quiet quiet)) as [Hexec _];
    [reflexivity | apply Hexec].
Defined.

Lemma stale_ids_are_404_witness :
  trace_of (getDatasetData
              (custom (Ok None) (Ok None) quiet (Ok tt) noHttp quiet quiet)
              (req5 JUndef))
  = [EGetDataset 5; ERespond 404 (msg "Dataset not found")]
  /\ trace_of (getDatasetData
                 (custom (Ok (Some dataset5)) (Ok None) quiet (Ok tt) noHttp
                         quiet quiet)
                 (req5 JUndef))
     = [EGetDataset 5; EGetConnection (JNum 1);
        ERespond 404 (msg "Connection not found")].
Proof.
  split.
  - apply (stale_ids_are_404
             (custom (Ok None) (Ok None) quiet (Ok tt) noHttp quiet quiet)
             (req5 JUndef)). reflexivity.
  - apply (stale_ids_are_404
             (custom (Ok (Some dataset5)) (Ok None) quiet (Ok tt) noHttp
                     quiet quiet)
             (req5 JUndef)) with (dataset := dataset5); reflexivity.
Defined.

Lemma unexpected_failures_are_500_witness :
  responses (trace_of (getDatasetData
                         (custom (Err "connection refused") (Ok None) quiet
                                 (Ok tt) noHttp quiet quiet)
                         (req5 JUndef)))
  = [(500, msg "Internal server error")]
  /\ responses (trace_of (getDatasetData
                            (custom (Ok (Some dataset5))
                                    (Err "connection refused") quiet (Ok tt)
                                    noHttp quiet quiet)
                            (req5 JUndef)))
     = [(500, msg "Internal server error")]
  /\ responses (trace_of (getDatasetData
                            (around (conn "csv" csvText) quiet (Ok tt) noHttp
                                    (Err "Unterminated quote") quiet)
                            (req5 JUndef)))
     = [(500, msg "Internal server error")].
Proof.
  split; [|split].
  - apply (unexpected_failures_are_500
             (custom (Err "connection refused") (Ok None) quiet (Ok tt)
                     noHttp quiet quiet)
             (req5 JUndef)) with (e := "connection refused"). reflexivity.
  - apply (unexpected_failures_are_500
             (custom (Ok (Some dataset5)) (Err "connection refused") quiet
                     (Ok tt) noHttp quiet quiet)
             (req5 JUndef))
      with (dataset := dataset5) (connectionId := 1)
           (e := "connection refused"); reflexivity.
  - apply (unexpected_failures_are_500
             (around (conn "csv" csvText) quiet (Ok tt) noHttp
                     (Err "Unterminated quote") quiet)
             (req5 JUndef))
      with (dataset := dataset5) (connectionId := 1)
           (connection := conn "csv" csvText) (e := "Unterminated quote");
      [apply around_resolves | reflexivity | reflexivity | reflexivity].
Defined.

Lemma rest_exception_is_400_witness :
  responses (trace_of (getDatasetData
                         (around (conn "rest" (restConfig JUndef)) quiet
                                 (Ok tt) (Err "fetch failed") quiet quiet)
                         (req5 JUndef)))
  = [(400, msg_err "REST API request failed" "fetch failed")]
  /\ responses (trace_of (getDatasetData
                            (around (conn "rest" (restConfig JUndef)) quiet
                                    (Ok tt)
                                    (Ok (okResponse (Err "Unexpected token <")))
                                    quiet quiet)
                            (req5 JUndef)))
     = [(400, msg_err "REST API request failed" "Unexpected token <")]
  /\ responses (trace_of (getDatasetData
                            (around (conn "rest" (restConfig JUndef)) quiet
                                    (Ok tt) (Ok (okResponse (Ok items)))
                                    quiet (Err "bad path"))
                            (req5 JUndef)))
     = [(400, msg_err "REST API request failed" "bad path")].
Proof.
  split; [|split].
  - apply (rest_exception_is_400 _ (req5 JUndef) dataset5 1
             (conn "rest" (restConfig JUndef))
             (around_requests_upstream (restConfig JUndef)
                (Err "fetch failed") quiet eq_refl)).
    reflexivity.
  - apply (rest_exception_is_400 _ (req5 JUndef) dataset5 1
             (conn "rest" (restConfig JUndef))
             (around_requests_upstream (restConfig JUndef)
                (Ok (okResponse (Err "Unexpected token <"))) quiet eq_refl))
      with (response := okResponse (Err "Unexpected token <"));
      reflexivity.
  - apply (rest_exception_is_400 _ (req5 JUndef) dataset5 1
             (conn "rest" (restConfig JUndef))
             (around_requests_upstream (restConfig JUndef)
                (Ok (okResponse (Ok items))) (Err "bad path") eq_refl))
      with (response := okResponse (Ok items)) (json := items);
      reflexivity.
Defined.

Lemma rest_success_is_200_witness :
  responses (trace_of (getDatasetData
                         (around (conn "rest" (restConfig JUndef)) quiet
                                 (Ok tt) (Ok (okResponse (Ok items))) quiet
                                 (Ok (JArr [JObj [("id", JNum 1)]])))
                         (req5 JUndef)))
  = [(200, JArr [JObj [("id", JNum 1)]])].
Proof.
  rewrite (rest_success_is_200 _ (req5 JUndef) dataset5 1
             (conn "rest" (restConfig JUndef)) (okResponse (Ok items)) items
             (JArr [JObj [("id", JNum 1)]])
             (around_requests_upstream (restConfig JUndef)
                (Ok (okResponse (Ok items)))
                (Ok (JArr [JObj [("id", JNum 1)]])) eq_refl));
    reflexivity.
Defined.

Lemma rest_without_url_is_400_witness :
  trace_of (getDatasetData
              (around (conn "rest" (JObj [("auth", bearer (JStr "t"))]))
                      quiet (Ok tt) noHttp quiet quiet)
              (req5 JUndef))
  = [EGetDataset 5; EGetConnection (JNum 1);
     ERespond 400 (msg "REST connection URL is missing")].
Proof.
  apply (rest_without_url_is_400 _ (req5 JUndef) dataset5 1
           (conn "rest" (JObj [("auth", bearer (JStr "t"))])));
    [apply around_resolves | reflexivity | reflexivity].
Defined.


Lemma request_method_and_body_witness :
  (fo_method (fetchOptions (restConfig JUndef)) = JStr "GET"
   /\ fo_body (fetchOptions (restConfig JUndef)) = None)
  /\ Http.header (fo_headers (fetchOptions posting)) "Content-Type"
     = Some "application/json".
Proof.
  split.
  - destruct (request_method_and_body
                (around (conn "rest" (restConfig JUndef)) quiet (Ok tt)
                        noHttp quiet quiet)
                (req5 JUndef) dataset5 1 (conn "rest" (restConfig JUndef))
                (around_requests_upstream (restConfig JUndef) noHttp quiet
                   eq_refl))
      as (_ & Hget & _).
    exact (Hget eq_refl).
  - destruct (request_method_and_body
                (around (conn "rest" posting) quiet (Ok tt) noHttp quiet
                        quiet)
                (req5 JUndef) dataset5 1 (conn "rest" posting)
                (around_requests_upstream posting noHttp quiet eq_refl))
      as (_ & _ & _ & Hbody).
    destruct (Hbody (JObj [("q", JStr "a")]) eq_refl)
      as (_ & _ & _ & _ & Hrequest).
    apply Hrequest. split.
    + repeat constructor. intros [].
    + intros k [<- | []] _. reflexivity.
Defined.

Lemma sql_fetch_answer_witness :
  responses (trace_of (getDatasetData
                         (around (sqlConn withString)
                                 (Err "relation t does not exist") (Ok tt)
                                 noHttp quiet quiet)
                         (req5 JUndef)))
  = [(400, msg_err "SQL query execution failed" "relation t does not exist")].
Proof.
  rewrite (sql_fetch_answer _ (req5 JUndef) dataset5 1 (sqlConn withString)
             dbUrl
             (around_opens_pool (Err "relation t does not exist") (Ok tt)
                JUndef));
    reflexivity.
Defined.

Lemma end_failure_masks_the_query_witness :
  responses (trace_of (getDatasetData
                         (around (sqlConn withString) (Ok someRows)
                                 (Err "socket hang up") noHttp quiet quiet)
                         (req5 JUndef)))
  = [(400, msg_err "SQL query execution failed" "socket hang up")]
  /\ closes (trace_of (getDatasetData
                         (around (sqlConn withString) (Ok someRows)
                                 (Err "socket hang up") noHttp quiet quiet)
                         (req5 JUndef))) = 1%nat.
Proof.
  apply (end_failure_masks_the_query _ (req5 JUndef) dataset5 1
           (sqlConn withString) dbUrl "socket hang up"
           (around_opens_pool (Ok someRows) (Err "socket hang up") JUndef)).
  reflexivity.
Defined.

Lemma default_is_users_table_witness :
  executed (trace_of (getDatasetData
                        (custom (Ok (Some bare))
                                (Ok (Some (sqlConn withString)))
                                (Ok someRows) (Ok tt) noHttp quiet quiet)
                        (req5 (JArr [JStr "a"; JStr "b"]))))
  = [JStr "SELECT * FROM users LIMIT 100"].
Proof.
  apply (default_is_users_table _ (req5 (JArr [JStr "a"; JStr "b"])) bare 1
           (sqlConn withString) dbUrl);
    [repeat split | reflexivity | reflexivity | reflexivity].
Defined.

Lemma dispatch_is_exclusive_witness :
  pool_events (trace_of (getDatasetData csvWorld (req5 JUndef))) = []
  /\ parse_calls (trace_of (getDatasetData restDown (req5 JUndef))) = []
  /\ requests (trace_of (getDatasetData sqlWorld (req5 JUndef))) = [].
Proof.
  split; [|split].
  - destruct (dispatch_is_exclusive csvWorld (req5 JUndef) dataset5 1
                (conn "csv" csvText) (around_resolves _ _ _ _ _ _ _))
      as (Hcsv & _ & _).
    destruct (Hcsv eq_refl) as (Hpool & _ & _). exact Hpool.
  - destruct (dispatch_is_exclusive restDown (req5 JUndef) dataset5 1
                (conn "rest" (restConfig JUndef))
                (around_resolves _ _ _ _ _ _ _))
      as (_ & Hrest & _).
    destruct (Hrest eq_refl) as (_ & Hparse & _). exact Hparse.
  - destruct (dispatch_is_exclusive sqlWorld (req5 JUndef) dataset5 1
                (sqlConn withString) (around_resolves _ _ _ _ _ _ _))
      as (_ & _ & Hsql).
    destruct (Hsql eq_refl) as (Hreq & _). exact Hreq.
Defined.

Lemma tables_route_lists_names_witness :
  responses (trace_of (getConnectionTables
                         (around (sqlConn withString) (Ok (JArr tableRows))
                                 (Ok tt) noHttp quiet quiet) 1))
  = [(200, JArr [JStr "orders"; JStr "users"])].
Proof.
  apply (tables_route_lists_names _ 1 (sqlConn withString) dbUrl tableRows);
    reflexivity.
Defined.

Lemma body_is_validated_first_witness :
  trace_of (postExecuteQuery
              (around (sqlConn withString) quiet (Ok tt) noHttp quiet quiet)
              (JObj [("query", JStr "SELECT 1")]))
  = [ERespond 400 (msg "Connection ID is required")]
  /\ trace_of (postExecuteQuery
                 (around (sqlConn withString) quiet (Ok tt) noHttp quiet quiet)
                 (JObj [("connectionId", JNum 1); ("query", JNum 7)]))
     = [ERespond 400 (msg "Valid SQL query is required")]
  /\ trace_of (postTableSchema
                 (around (sqlConn withString) quiet (Ok tt) noHttp quiet quiet)
                 (JObj [("connectionId", JNum 1); ("table", JStr "")]))
     = [ERespond 400 (msg "Table name is required")].
Proof.
  split; [|split].
  - apply (body_is_validated_first
             (around (sqlConn withString) quiet (Ok tt) noHttp quiet quiet)
             (JObj [("query", JStr "SELECT 1")]) eq_refl). reflexivity.
  - apply (body_is_validated_first
             (around (sqlConn withString) quiet (Ok tt) noHttp quiet quiet)
             (JObj [("connectionId", JNum 1); ("query", JNum 7)]) eq_refl);
      reflexivity.
  - apply (body_is_validated_first
             (around (sqlConn withString) quiet (Ok tt) noHttp quiet quiet)
             (JObj [("connectionId", JNum 1); ("table", JStr "")]) eq_refl);
      reflexivity.
Defined.

Lemma sql_only_routes_reject_other_types_witness :
  trace_of (postTableSchema
              (around (conn "csv" withString) quiet (Ok tt) noHttp quiet quiet)
              schemaBody)
  = [EGetConnection (JNum 1);
     ERespond 400 (msg "Connection must be of type 'sql'")].
Proof.
  destruct (sql_only_routes_reject_other_types
              (around (conn "csv" withString) quiet (Ok tt) noHttp quiet
                      quiet)
              (conn "csv" withString)) as (_ & Hschema & _);
    [discriminate | apply (Hschema schemaBody); reflexivity].
Defined.

Lemma execute_route_without_stored_query_witness :
  executed (trace_of (executeDatasetQuery
                        (around (sqlConn withString) quiet (Ok tt) noHttp
                                quiet quiet)
                        bare (JStr "SELECT 1") dbUrl))
  = [JStr "SELECT 1"].
Proof.
  apply (execute_route_without_stored_query _ bare). reflexivity.
Defined.

Lemma register_adds_once_witness :
  Ws.activeClients
    (Ws.registerWebSocketClient allOpen (Some 2%nat)
       (Ws.registerWebSocketClient allOpen (Some 1%nat) Ws.empty))
  = [1%nat; 2%nat].
Proof.
  destruct (register_adds_once allOpen 2%nat
              (Ws.registerWebSocketClient allOpen (Some 1%nat) Ws.empty)
              (reach_register allOpen (Some 1%nat) Ws.empty reach_empty))
    as [Hadd _].
  destruct Hadd as (_ & _ & _ & _ & Hnew); [discriminate|].
  apply Hnew. intros [H | []]. discriminate H.
Defined.

Lemma register_unregister_round_trip_witness :
  Ws.activeClients
    (fst (Ws.unregisterWebSocketClient allOpen (Some 2%nat)
            (Ws.registerWebSocketClient allOpen (Some 2%nat)
               (Ws.registerWebSocketClient allOpen (Some 1%nat) Ws.empty))))
  = [1%nat].
Proof.
  apply (register_unregister_round_trip allOpen allOpen 2%nat
           (Ws.registerWebSocketClient allOpen (Some 1%nat) Ws.empty)).
  intros [H | []]. discriminate H.
Defined.

Lemma close_event_removes_member_witness :
  ~ In 1%nat
      (Ws.activeClients
         (Ws.closeEvent 1%nat
            (Ws.registerWebSocketClient allOpen (Some 1%nat) Ws.empty))).
Proof.
  apply (close_event_removes_member
           (Ws.registerWebSocketClient allOpen (Some 1%nat) Ws.empty)
           1%nat (reach_register allOpen (Some 1%nat) Ws.empty reach_empty)).
  left. reflexivity.
Defined.




End MoreExamples.
